(** * Heat / electricity-load pipeline (processing.py)

    A shallow embedding of the five SQL stages that [processing.py] runs
    against the DuckDB file [heatgrid.duckdb], with the properties of the
    design document proved (or refuted) on it, of [load_data] of
    [analysis.py], which reads the unified table back, and of the
    exemption score of [individual_scores.py].

    Tables are lists of records (SQL bags, in insertion order); a
    nullable column is an [option].  In the pipeline the DOUBLE columns
    are read as exact rationals [Qc], which decides keys, NULLs, joins
    and comparisons; the value of a threshold and of a daily total is a
    rounded binary64 number, and [Module F64] reads the threshold stage
    and the daily load stage on binary64.
    The SQL operators used by the queries (DISTINCT, GROUP BY, the
    aggregates, the joins, ORDER BY, three-valued comparison) are
    written once in [Module Sql] and the queries are written with them,
    clause by clause. *)

From Stdlib Require Import Floats Uint63.
From Stdlib Require Import String Ascii List ZArith QArith Qcanon Qround Lia Bool.
From Stdlib Require Import Sorting.Permutation Sorting.Sorted Lqa.
Import ListNotations.

Set Implicit Arguments.
Set Warnings "-inexact-float".

(* ================================================================== *)
(** ** SQL operators *)
(* ================================================================== *)

Module Sql.

Section Bags.
Variables A K : Type.
Variable A_eq_dec : forall x y : A, {x = y} + {x <> y}.
Variable K_eq_dec : forall x y : K, {x = y} + {x <> y}.

(** [x <> y] as a row filter. *)
Definition differs (x y : A) : bool :=
  if A_eq_dec x y then false else true.

(** SELECT DISTINCT: every row once, at its first position. *)
Fixpoint distinct (l : list A) : list A :=
  match l with
  | [] => []
  | x :: l' => x :: filter (differs x) (distinct l')
  end.

(** The rows of one GROUP BY group. *)
Definition group_rows (key : A -> K) (k : K) (l : list A) : list A :=
  filter (fun r => if K_eq_dec (key r) k then true else false) l.
End Bags.

(** GROUP BY [key]: one group per distinct key value, each with its
    rows in table order.  SQL leaves the order of the groups to the
    engine; they are listed here by first appearance. *)
Definition group_by (A K : Type)
    (K_eq_dec : forall x y : K, {x = y} + {x <> y})
    (key : A -> K) (l : list A) : list (K * list A) :=
  map (fun k => (k, group_rows K_eq_dec key k l))
      (distinct K_eq_dec (map key l)).

(** Aggregates skip NULL inputs. *)
Fixpoint non_null (A : Type) (l : list (option A)) : list A :=
  match l with
  | [] => []
  | Some x :: l' => x :: non_null l'
  | None :: l' => non_null l'
  end.

Definition Qcmax (x y : Qc) : Qc := if Qclt_le_dec x y then y else x.
Definition Qcmin (x y : Qc) : Qc := if Qclt_le_dec y x then y else x.

(** MAX, SUM, AVG: NULL when no non-NULL input is left.  SUM and AVG
    are the exact sum and mean; the rounded SUM of a DOUBLE column, in
    an order that the engine chooses, is [F64.sql_sum]. *)
Definition sql_max (l : list (option Qc)) : option Qc :=
  match non_null l with
  | [] => None
  | x :: xs => Some (fold_left Qcmax xs x)
  end.

Definition sql_sum (l : list (option Qc)) : option Qc :=
  match non_null l with
  | [] => None
  | x :: xs => Some (fold_left Qcplus xs x)
  end.

Definition Qc_of_nat (n : nat) : Qc := Q2Qc (inject_Z (Z.of_nat n)).

Definition sql_avg (l : list (option Qc)) : option Qc :=
  match non_null l with
  | [] => None
  | x :: xs => Some (fold_left Qcplus xs x / Qc_of_nat (length (x :: xs)))
  end.

(** Ascending sort of the samples of a quantile. *)
Fixpoint insert_sorted (x : Qc) (l : list Qc) : list Qc :=
  match l with
  | [] => [x]
  | y :: l' => if Qclt_le_dec y x then y :: insert_sorted x l' else x :: l
  end.

Fixpoint sort_asc (l : list Qc) : list Qc :=
  match l with
  | [] => []
  | x :: l' => insert_sorted x (sort_asc l')
  end.

(** [quantile_cont(x, q)], DuckDB's continuous quantile, in exact
    arithmetic.  With [n] non-NULL samples it takes the real rank
    [RN = (n - 1) * q], its floor [FRN] and ceiling [CRN], and returns
    the sample of rank [FRN] when the two coincide, otherwise
    [lo * (1 - d) + hi * d] with [d = RN - FRN] for the samples [lo],
    [hi] of ranks [FRN] and [CRN].  No sample: NULL.  The rounded
    computation is [F64.quantile_cont]. *)
Definition quantile_cont (l : list (option Qc)) (q : Qc) : option Qc :=
  let v := sort_asc (non_null l) in
  match v with
  | [] => None
  | x0 :: _ =>
      let RN := Qc_of_nat (length v - 1) * q in
      let FRN := Z.to_nat (Qfloor RN) in
      let CRN := Z.to_nat (Qceiling RN) in
      if Nat.eq_dec CRN FRN then Some (nth FRN v x0)
      else
        let lo := nth FRN v x0 in
        let hi := nth CRN v x0 in
        let d := RN - Qc_of_nat FRN in
        Some (lo * (1 - d) + hi * d)
  end.

(** [a >= b] in three-valued logic. *)
Definition sql_ge (a b : option Qc) : option bool :=
  match a, b with
  | Some x, Some y => Some (if Qclt_le_dec x y then false else true)
  | _, _ => None
  end.

Section Joins.
Variables L R : Type.
Variable on : L -> R -> bool.

(** [l JOIN r ON on]. *)
Definition inner_join (l : list L) (r : list R) : list (L * R) :=
  flat_map (fun x => map (pair x) (filter (on x) r)) l.

(** [l LEFT JOIN r ON on]: a left row without a match is kept once,
    with a NULL right side. *)
Definition left_join (l : list L) (r : list R) : list (L * option R) :=
  flat_map (fun x =>
              match filter (on x) r with
              | [] => [(x, None)]
              | ms => map (fun y => (x, Some y)) ms
              end) l.

(** What a LEFT JOIN pairs a left row with. *)
Definition left_match (x : L) (r : list R) (oy : option R) : Prop :=
  (oy = None /\ forall y, In y r -> on x y = false)
  \/ (exists y, oy = Some y /\ In y r /\ on x y = true).
End Joins.

(** ORDER BY: a stable ascending sort on a key with a boolean [<=]. *)
Section OrderBy.
Variables A K : Type.
Variable leb : K -> K -> bool.
Variable key : A -> K.

Fixpoint insert_by (x : A) (l : list A) : list A :=
  match l with
  | [] => [x]
  | y :: l' => if leb (key x) (key y) then x :: l else y :: insert_by x l'
  end.

Definition order_by (l : list A) : list A :=
  fold_right insert_by [] l.
End OrderBy.

End Sql.

(* ================================================================== *)
(** ** Column types *)
(* ================================================================== *)

(** A TIMESTAMP, by its civil fields (UTC). *)
Record timestamp : Type := {
  ts_year : Z;
  ts_month : nat;
  ts_day : nat;
  ts_hour : nat;
  ts_minute : nat;
  ts_second : nat
}.

Definition timestamp_eq_dec : forall x y : timestamp, {x = y} + {x <> y}.
Proof. decide equality; try apply Nat.eq_dec; apply Z.eq_dec. Defined.

(** [DATE_TRUNC('day', ts)]. *)
Definition date_trunc_day (ts : timestamp) : timestamp :=
  {| ts_year := ts_year ts; ts_month := ts_month ts; ts_day := ts_day ts;
     ts_hour := 0; ts_minute := 0; ts_second := 0 |}.

Definition digit (n : nat) : ascii := ascii_of_nat (48 + n mod 10).

Definition two_digits (n : nat) : string :=
  String (digit (n / 10)) (String (digit n) EmptyString).

(** [strftime(ts, '%m-%d')]: the calendar-day key, "MM-DD". *)
Definition strftime_mmdd (ts : timestamp) : string :=
  (two_digits (ts_month ts) ++ "-" ++ two_digits (ts_day ts))%string.

Definition timestamp_fields (ts : timestamp) : list Z :=
  [ts_year ts; Z.of_nat (ts_month ts); Z.of_nat (ts_day ts);
   Z.of_nat (ts_hour ts); Z.of_nat (ts_minute ts); Z.of_nat (ts_second ts)].

Fixpoint lex_leb (a b : list Z) : bool :=
  match a, b with
  | x :: a', y :: b' => if (x <? y)%Z then true
                        else if (y <? x)%Z then false else lex_leb a' b'
  | _, _ => true
  end.

Definition timestamp_leb (a b : timestamp) : bool :=
  lex_leb (timestamp_fields a) (timestamp_fields b).

(** The sort key of [ORDER BY <name>, day_utc]. *)
Definition name_day_leb (a b : string * timestamp) : bool :=
  if string_dec (fst a) (fst b) then timestamp_leb (snd a) (snd b)
  else String.leb (fst a) (fst b).

Definition name_day_eq_dec : forall x y : string * timestamp, {x = y} + {x <> y}.
Proof. decide equality; [apply timestamp_eq_dec | apply string_dec]. Defined.

Definition name_mmdd_eq_dec : forall x y : string * string, {x = y} + {x <> y}.
Proof. decide equality; apply string_dec. Defined.

Definition option_Qc_eq_dec : forall x y : option Qc, {x = y} + {x <> y}.
Proof. decide equality; apply Qc_eq_dec. Defined.

(* ================================================================== *)
(** ** Tables *)
(* ================================================================== *)

(** Modelled from the spec: the two raw tables are created by an
    ingestion step that is not part of [processing.py]; their columns
    are the ones the queries read, with the nullability of the design
    document (station / region and timestamp always present, the
    measured value possibly NULL). *)
Module NoaaHourlyAvg.
Record row : Type := {
  station : string;
  hour_utc : timestamp;
  temp_C : option Qc
}.
End NoaaHourlyAvg.

Module EiaLoadHourly.
Record row : Type := {
  region : string;
  hour_utc : timestamp;
  load_mwh : option Qc
}.

Definition row_eq_dec : forall x y : row, {x = y} + {x <> y}.
Proof.
  decide equality;
    [apply option_Qc_eq_dec | apply timestamp_eq_dec | apply string_dec].
Defined.
End EiaLoadHourly.

Module NoaaDailyTemp.
Record row : Type := {
  station : string;
  day_utc : timestamp;
  daily_max_temp_C : option Qc;
  avg_temp_C : option Qc
}.
End NoaaDailyTemp.

Module NoaaTempThresholds.
Record row : Type := {
  station : string;
  mmdd : string;
  t90_max : option Qc
}.
End NoaaTempThresholds.

Module NoaaHeatwaveFlags.
Record row : Type := {
  station : string;
  day_utc : timestamp;
  daily_max_temp_C : option Qc;
  avg_temp_C : option Qc;
  t90_max : option Qc;
  is_hot_day : Z
}.
End NoaaHeatwaveFlags.

Module EiaDailyLoad.
Record row : Type := {
  region : string;
  day_utc : timestamp;
  daily_total_mwh : option Qc;
  daily_peak_mwh : option Qc
}.
End EiaDailyLoad.

Module HeatLoadDaily.
Record row : Type := {
  station : string;
  region : option string;
  day_utc : timestamp;
  daily_max_temp_C : option Qc;
  avg_temp_C : option Qc;
  t90_max : option Qc;
  is_hot_day : option bool;
  daily_total_mwh : option Qc;
  daily_peak_mwh : option Qc
}.
End HeatLoadDaily.

(* ================================================================== *)
(** ** The five queries of processing.py *)
(* ================================================================== *)

(** A column of the nullable side of a LEFT JOIN. *)
Definition col (R A : Type) (r : option R) (c : R -> option A) : option A :=
  match r with
  | Some x => c x
  | None => None
  end.

(** [build_noaa_daily]: daily max and mean temperature per station. *)
Definition select_noaa_daily_temp
    (noaa_hourly_avg : list NoaaHourlyAvg.row) : list NoaaDailyTemp.row :=
  Sql.order_by name_day_leb
    (fun r => (NoaaDailyTemp.station r, NoaaDailyTemp.day_utc r))
    (map (fun g : (string * timestamp) * list NoaaHourlyAvg.row =>
            {| NoaaDailyTemp.station := fst (fst g);
               NoaaDailyTemp.day_utc := snd (fst g);
               NoaaDailyTemp.daily_max_temp_C :=
                 Sql.sql_max (map NoaaHourlyAvg.temp_C (snd g));
               NoaaDailyTemp.avg_temp_C :=
                 Sql.sql_avg (map NoaaHourlyAvg.temp_C (snd g)) |})
         (Sql.group_by name_day_eq_dec
            (fun r => (NoaaHourlyAvg.station r,
                       date_trunc_day (NoaaHourlyAvg.hour_utc r)))
            noaa_hourly_avg)).

(** The GROUP BY key of [build_noaa_thresholds]. *)
Definition station_mmdd (r : NoaaDailyTemp.row) : string * string :=
  (NoaaDailyTemp.station r, strftime_mmdd (NoaaDailyTemp.day_utc r)).

Definition q90 : Qc := Q2Qc (90 # 100).

(** [build_noaa_thresholds]: the 0.90 quantile of the daily maxima per
    station and day of the year. *)
Definition select_noaa_temp_thresholds
    (noaa_daily_temp : list NoaaDailyTemp.row) : list NoaaTempThresholds.row :=
  map (fun g : (string * string) * list NoaaDailyTemp.row =>
         {| NoaaTempThresholds.station := fst (fst g);
            NoaaTempThresholds.mmdd := snd (fst g);
            NoaaTempThresholds.t90_max :=
              Sql.quantile_cont
                (map NoaaDailyTemp.daily_max_temp_C (snd g)) q90 |})
      (Sql.group_by name_mmdd_eq_dec station_mmdd noaa_daily_temp).

(** The ON clause shared by the flag builder and the final join:
    [n.station = t.station AND strftime(n.day_utc, '%m-%d') = t.mmdd]. *)
Definition on_threshold (n : NoaaDailyTemp.row) (t : NoaaTempThresholds.row)
  : bool :=
  (NoaaDailyTemp.station n =? NoaaTempThresholds.station t)%string
  && (strftime_mmdd (NoaaDailyTemp.day_utc n) =? NoaaTempThresholds.mmdd t)%string.

(** [build_noaa_heatwave_flags]: the CTE [daily_with_mmdd] only adds the
    column [mmdd], which the ON clause reads; [is_hot_day] is the
    integer of [CASE WHEN ... THEN 1 ELSE 0 END]. *)
Definition select_noaa_heatwave_flags
    (noaa_daily_temp : list NoaaDailyTemp.row)
    (noaa_temp_thresholds : list NoaaTempThresholds.row)
  : list NoaaHeatwaveFlags.row :=
  Sql.order_by name_day_leb
    (fun r => (NoaaHeatwaveFlags.station r, NoaaHeatwaveFlags.day_utc r))
    (map (fun dt : NoaaDailyTemp.row * NoaaTempThresholds.row =>
            let (d, t) := dt in
            {| NoaaHeatwaveFlags.station := NoaaDailyTemp.station d;
               NoaaHeatwaveFlags.day_utc := NoaaDailyTemp.day_utc d;
               NoaaHeatwaveFlags.daily_max_temp_C :=
                 NoaaDailyTemp.daily_max_temp_C d;
               NoaaHeatwaveFlags.avg_temp_C := NoaaDailyTemp.avg_temp_C d;
               NoaaHeatwaveFlags.t90_max := NoaaTempThresholds.t90_max t;
               NoaaHeatwaveFlags.is_hot_day :=
                 match Sql.sql_ge (NoaaDailyTemp.daily_max_temp_C d)
                                  (NoaaTempThresholds.t90_max t) with
                 | Some true => 1%Z
                 | _ => 0%Z
                 end |})
         (Sql.inner_join on_threshold noaa_daily_temp noaa_temp_thresholds)).

(** The CTE [hourly_unique] of [build_eia_daily_load]. *)
Definition hourly_unique (eia_load_hourly : list EiaLoadHourly.row)
  : list EiaLoadHourly.row :=
  Sql.distinct EiaLoadHourly.row_eq_dec eia_load_hourly.

Definition region_day (r : EiaLoadHourly.row) : string * timestamp :=
  (EiaLoadHourly.region r, date_trunc_day (EiaLoadHourly.hour_utc r)).

(** [build_eia_daily_load]: total and peak load per region and day. *)
Definition select_eia_daily_load
    (eia_load_hourly : list EiaLoadHourly.row) : list EiaDailyLoad.row :=
  Sql.order_by name_day_leb
    (fun r => (EiaDailyLoad.region r, EiaDailyLoad.day_utc r))
    (map (fun g : (string * timestamp) * list EiaLoadHourly.row =>
            {| EiaDailyLoad.region := fst (fst g);
               EiaDailyLoad.day_utc := snd (fst g);
               EiaDailyLoad.daily_total_mwh :=
                 Sql.sql_sum (map EiaLoadHourly.load_mwh (snd g));
               EiaDailyLoad.daily_peak_mwh :=
                 Sql.sql_max (map EiaLoadHourly.load_mwh (snd g)) |})
         (Sql.group_by name_day_eq_dec region_day
            (hourly_unique eia_load_hourly))).

(** The region column:
    [CASE WHEN station = 'IAD' THEN 'PJM' WHEN station = 'BOS' THEN 'ISNE' END]. *)
Definition region_column (station : string) : option string :=
  if (station =? "IAD")%string then Some "PJM"%string
  else if (station =? "BOS")%string then Some "ISNE"%string
  else None.

(** The region of the load join:
    [CASE WHEN station = 'IAD' THEN 'PJM' ELSE 'ISNE' END]. *)
Definition region_joined (station : string) : string :=
  if (station =? "IAD")%string then "PJM"%string else "ISNE"%string.

Definition on_load (nt : NoaaDailyTemp.row * option NoaaTempThresholds.row)
    (e : EiaDailyLoad.row) : bool :=
  (EiaDailyLoad.region e =? region_joined (NoaaDailyTemp.station (fst nt)))%string
  && (if timestamp_eq_dec (EiaDailyLoad.day_utc e)
                          (NoaaDailyTemp.day_utc (fst nt))
      then true else false).

(** [heat_load_daily]: the unified daily table. *)
Definition select_heat_load_daily
    (noaa_daily_temp : list NoaaDailyTemp.row)
    (noaa_temp_thresholds : list NoaaTempThresholds.row)
    (eia_daily_load : list EiaDailyLoad.row) : list HeatLoadDaily.row :=
  map (fun nte : (NoaaDailyTemp.row * option NoaaTempThresholds.row)
                 * option EiaDailyLoad.row =>
         let n := fst (fst nte) in
         let t := snd (fst nte) in
         let e := snd nte in
         {| HeatLoadDaily.station := NoaaDailyTemp.station n;
            HeatLoadDaily.region := region_column (NoaaDailyTemp.station n);
            HeatLoadDaily.day_utc := NoaaDailyTemp.day_utc n;
            HeatLoadDaily.daily_max_temp_C := NoaaDailyTemp.daily_max_temp_C n;
            HeatLoadDaily.avg_temp_C := NoaaDailyTemp.avg_temp_C n;
            HeatLoadDaily.t90_max := col t NoaaTempThresholds.t90_max;
            HeatLoadDaily.is_hot_day :=
              Sql.sql_ge (NoaaDailyTemp.daily_max_temp_C n)
                         (col t NoaaTempThresholds.t90_max);
            HeatLoadDaily.daily_total_mwh := col e EiaDailyLoad.daily_total_mwh;
            HeatLoadDaily.daily_peak_mwh := col e EiaDailyLoad.daily_peak_mwh |})
      (Sql.left_join on_load
         (Sql.left_join on_threshold noaa_daily_temp noaa_temp_thresholds)
         eia_daily_load).

(* ================================================================== *)
(** ** The threshold and daily load stages in binary64 *)
(* ================================================================== *)

(** The daily maxima, the thresholds and the loads are DOUBLE columns:
    [quantile_cont] interpolates in binary64 and SUM adds in binary64.
    Where a property depends on the value of a threshold or of a daily
    total, and not only on its key or on its being NULL, the stage is
    read here on IEEE 754 binary64 numbers (the kernel's primitive
    floats). *)
Module F64.

(** [floor(x)] of a finite double [(-1)^s * m * 2^e], as an integer. *)
Definition floor (x : float) : Z :=
  match Prim2SF x with
  | S754_finite s m e =>
      let num := if s then Z.neg m else Z.pos m in
      if (0 <=? e)%Z then (num * 2 ^ e)%Z else (num / 2 ^ (- e))%Z
  | _ => 0%Z
  end.

(** [ceil(x)]. *)
Definition ceil (x : float) : Z := (- floor (- x)%float)%Z.

(** [(double) n]. *)
Definition of_nat (n : nat) : float := of_uint63 (Uint63.of_Z (Z.of_nat n)).

(** Ascending sort of the samples. *)
Fixpoint insert_sorted (x : float) (l : list float) : list float :=
  match l with
  | [] => [x]
  | y :: l' => if (y <? x)%float then y :: insert_sorted x l' else x :: l
  end.

Fixpoint sort_asc (l : list float) : list float :=
  match l with
  | [] => []
  | x :: l' => insert_sorted x (sort_asc l')
  end.


(** [quantile_cont(x, q)] on DOUBLE: with [n] non-NULL samples, the
    rank [RN = (double)(n - 1) * q], [FRN = floor(RN)] and
    [CRN = ceil(RN)]; the sample of rank [FRN] when the two coincide,
    otherwise [lo * (1 - d) + hi * d] with [d = RN - FRN], every
    operation rounded to binary64. *)
Definition quantile_cont (l : list (option float)) (q : float)
  : option float :=
  let v := sort_asc (Sql.non_null l) in
  match v with
  | [] => None
  | x0 :: _ =>
      let RN := (of_nat (length v - 1) * q)%float in
      let FRN := Z.to_nat (floor RN) in
      let CRN := Z.to_nat (ceil RN) in
      if Nat.eq_dec CRN FRN then Some (nth FRN v x0)
      else
        let lo := nth FRN v x0 in
        let hi := nth CRN v x0 in
        let d := (RN - of_nat FRN)%float in
        Some (lo * (1 - d) + hi * d)%float
  end.

Module NoaaDailyTemp.
Record row : Type := {
  station : string;
  day_utc : timestamp;
  daily_max_temp_C : option float;
  avg_temp_C : option float
}.
End NoaaDailyTemp.

Module NoaaTempThresholds.
Record row : Type := {
  station : string;
  mmdd : string;
  t90_max : option float
}.
End NoaaTempThresholds.

Definition station_mmdd (r : NoaaDailyTemp.row) : string * string :=
  (NoaaDailyTemp.station r, strftime_mmdd (NoaaDailyTemp.day_utc r)).

Definition q90 : float := 0.9%float.

(** [build_noaa_thresholds], as [select_noaa_temp_thresholds] above. *)
Definition select_noaa_temp_thresholds
    (noaa_daily_temp : list NoaaDailyTemp.row) : list NoaaTempThresholds.row :=
  map (fun g : (string * string) * list NoaaDailyTemp.row =>
         {| NoaaTempThresholds.station := fst (fst g);
            NoaaTempThresholds.mmdd := snd (fst g);
            NoaaTempThresholds.t90_max :=
              quantile_cont
                (map NoaaDailyTemp.daily_max_temp_C (snd g)) q90 |})
      (Sql.group_by name_mmdd_eq_dec station_mmdd noaa_daily_temp).

Definition threshold_key (r : NoaaTempThresholds.row) : string * string :=
  (NoaaTempThresholds.station r, NoaaTempThresholds.mmdd r).

(** The rows of one station and calendar day, and the samples they give
    the quantile. *)
Definition daily_group (k : string * string)
    (n : list NoaaDailyTemp.row) : list NoaaDailyTemp.row :=
  Sql.group_rows name_mmdd_eq_dec station_mmdd k n.

Definition samples_of (k : string * string)
    (n : list NoaaDailyTemp.row) : list float :=
  Sql.non_null (map NoaaDailyTemp.daily_max_temp_C (daily_group k n)).





Definition null_threshold_row : NoaaTempThresholds.row :=
  {| NoaaTempThresholds.station := ""; NoaaTempThresholds.mmdd := "";
     NoaaTempThresholds.t90_max := None |}.


(** *** The daily load stage *)

(** Two DOUBLE values are the same value for SELECT DISTINCT when they
    are the same binary64 number. *)
Definition float_eq_dec (x y : float) : {x = y} + {x <> y}.
Proof.
  destruct (Leibniz.eqb x y) eqn:E.
  - left. now apply Leibniz.eqb_spec.
  - right. intros H. apply Leibniz.eqb_spec in H. congruence.
Defined.

(** The rows of [eia_load_hourly] and [eia_daily_load], as above, with
    the loads as binary64 numbers. *)
Module EiaLoadHourly.
Record row : Type := {
  region : string;
  hour_utc : timestamp;
  load_mwh : option float
}.

Definition row_eq_dec : forall x y : row, {x = y} + {x <> y}.
Proof.
  decide equality;
    [decide equality; apply float_eq_dec | apply timestamp_eq_dec
    | apply string_dec].
Defined.
End EiaLoadHourly.

Module EiaDailyLoad.
Record row : Type := {
  region : string;
  day_utc : timestamp;
  daily_total_mwh : option float;
  daily_peak_mwh : option float
}.
End EiaDailyLoad.

(** SUM over a DOUBLE column adds the values of a group two at a time,
    every addition rounded; SQL leaves the order of the values and the
    grouping into partial sums to the engine.  A [summation] is one such
    way of adding. *)
Inductive summation : Type :=
| Value (x : float)
| Plus (a b : summation).

Fixpoint addends (s : summation) : list float :=
  match s with
  | Value x => [x]
  | Plus a b => addends a ++ addends b
  end.

Fixpoint result (s : summation) : float :=
  match s with
  | Value x => x
  | Plus a b => (result a + result b)%float
  end.

(** An engine chooses the summation of the values [x :: xs] of a group;
    it adds every value once. *)
Definition engine : Type := float -> list float -> summation.

Definition adds_each_once (e : engine) : Prop :=
  forall x xs, Permutation (addends (e x xs)) (x :: xs).

(** The values added one after the other in table order, and from the
    last to the first. *)
Definition in_table_order : engine :=
  fun x xs => fold_left (fun s y => Plus s (Value y)) xs (Value x).

Definition in_reverse_order : engine :=
  fun x xs =>
    match rev (x :: xs) with
    | [] => Value x
    | y :: ys => in_table_order y ys
    end.

(** SUM: NULL when no non-NULL input is left, otherwise the result of
    the summation that the engine chooses for the non-NULL values. *)
Definition sql_sum (e : engine) (l : list (option float)) : option float :=
  match Sql.non_null l with
  | [] => None
  | x :: xs => Some (result (e x xs))
  end.

(** MAX picks the greatest non-NULL value; DuckDB orders NaN above
    every other DOUBLE. *)
Definition greater (x y : float) : bool :=
  if is_nan x then negb (is_nan y)
  else if is_nan y then false else (y <? x)%float.

Definition sql_max (l : list (option float)) : option float :=
  match Sql.non_null l with
  | [] => None
  | x :: xs => Some (fold_left (fun m y => if greater y m then y else m) xs x)
  end.

Definition hourly_unique (eia_load_hourly : list EiaLoadHourly.row)
  : list EiaLoadHourly.row :=
  Sql.distinct EiaLoadHourly.row_eq_dec eia_load_hourly.

Definition region_day (r : EiaLoadHourly.row) : string * timestamp :=
  (EiaLoadHourly.region r, date_trunc_day (EiaLoadHourly.hour_utc r)).

(** [build_eia_daily_load], as [select_eia_daily_load] above, with
    the engine that runs it. *)
Definition select_eia_daily_load (e : engine)
    (eia_load_hourly : list EiaLoadHourly.row) : list EiaDailyLoad.row :=
  Sql.order_by name_day_leb
    (fun r => (EiaDailyLoad.region r, EiaDailyLoad.day_utc r))
    (map (fun g : (string * timestamp) * list EiaLoadHourly.row =>
            {| EiaDailyLoad.region := fst (fst g);
               EiaDailyLoad.day_utc := snd (fst g);
               EiaDailyLoad.daily_total_mwh :=
                 sql_sum e (map EiaLoadHourly.load_mwh (snd g));
               EiaDailyLoad.daily_peak_mwh :=
                 sql_max (map EiaLoadHourly.load_mwh (snd g)) |})
         (Sql.group_by name_day_eq_dec region_day
            (hourly_unique eia_load_hourly))).

Definition load_key (r : EiaDailyLoad.row) : string * timestamp :=
  (EiaDailyLoad.region r, EiaDailyLoad.day_utc r).

(** The de-duplicated hourly rows of one region and day, and the daily
    rows of one region and day. *)
Definition unique_group (k : string * timestamp)
    (l : list EiaLoadHourly.row) : list EiaLoadHourly.row :=
  Sql.group_rows name_day_eq_dec region_day k (hourly_unique l).

Definition load_rows_of (k : string * timestamp)
    (t : list EiaDailyLoad.row) : list EiaDailyLoad.row :=
  filter (fun r => if name_day_eq_dec (load_key r) k then true else false) t.

(** Hourly rows of region "RX" on 4 July 2023. *)
Definition demand (h : nat) (v : float) : EiaLoadHourly.row :=
  {| EiaLoadHourly.region := "RX";
     EiaLoadHourly.hour_utc :=
       {| ts_year := 2023; ts_month := 7; ts_day := 4;
          ts_hour := h; ts_minute := 0; ts_second := 0 |};
     EiaLoadHourly.load_mwh := Some v |}.

(** The replay of the design document, and a day of three hours whose
    first hour was replayed. *)
Definition replayed : list EiaLoadHourly.row :=
  [demand 14 500%float; demand 14 500%float].

Definition three_hours : list EiaLoadHourly.row :=
  [demand 1 0.1%float; demand 2 0.2%float; demand 1 0.1%float;
   demand 3 0.3%float].

Definition totals (t : list EiaDailyLoad.row) : list (option float) :=
  map EiaDailyLoad.daily_total_mwh t.

End F64.

(* ================================================================== *)
(** ** The database and the stages *)
(* ================================================================== *)

(** The catalog of [heatgrid.duckdb]: a table exists or not. *)
Record db : Type := {
  noaa_hourly_avg : option (list NoaaHourlyAvg.row);
  eia_load_hourly : option (list EiaLoadHourly.row);
  noaa_daily_temp : option (list NoaaDailyTemp.row);
  noaa_temp_thresholds : option (list NoaaTempThresholds.row);
  noaa_heatwave_flags : option (list NoaaHeatwaveFlags.row);
  eia_daily_load : option (list EiaDailyLoad.row);
  heat_load_daily_table : option (list HeatLoadDaily.row)
}.

(** Reading a table that does not exist raises. *)
Inductive exn : Type :=
| CatalogException (table : string).

Inductive outcome (A : Type) : Type :=
| Done (a : A)
| Raised (e : exn).
Arguments Raised {A} e.

(** Statements run one after the other on the connection; each commits
    on its own, so the catalog reached when a statement raises stays. *)
Definition M (A : Type) : Type := db -> outcome A * db.

Definition ret (A : Type) (a : A) : M A := fun d => (Done a, d).

Definition bind (A B : Type) (m : M A) (k : A -> M B) : M B :=
  fun d => match m d with
           | (Done a, d') => k a d'
           | (Raised e, d') => (Raised e, d')
           end.

Notation "x <- m ;; k" := (bind m (fun x => k))
  (at level 61, m at next level, right associativity).
Notation "m ;;; k" := (bind m (fun _ => k))
  (at level 61, right associativity).

(** [FROM <table>]. *)
Definition from (T : Type) (name : string) (table : db -> option T) : M T :=
  fun d => match table d with
           | Some t => (Done t, d)
           | None => (Raised (CatalogException name), d)
           end.

(** [DROP TABLE IF EXISTS t; CREATE TABLE t AS ...] write one slot. *)
Definition set_noaa_daily_temp (v : option (list NoaaDailyTemp.row)) : M unit :=
  fun d => (Done tt,
            {| noaa_hourly_avg := noaa_hourly_avg d;
               eia_load_hourly := eia_load_hourly d;
               noaa_daily_temp := v;
               noaa_temp_thresholds := noaa_temp_thresholds d;
               noaa_heatwave_flags := noaa_heatwave_flags d;
               eia_daily_load := eia_daily_load d;
               heat_load_daily_table := heat_load_daily_table d |}).

Definition set_noaa_temp_thresholds
    (v : option (list NoaaTempThresholds.row)) : M unit :=
  fun d => (Done tt,
            {| noaa_hourly_avg := noaa_hourly_avg d;
               eia_load_hourly := eia_load_hourly d;
               noaa_daily_temp := noaa_daily_temp d;
               noaa_temp_thresholds := v;
               noaa_heatwave_flags := noaa_heatwave_flags d;
               eia_daily_load := eia_daily_load d;
               heat_load_daily_table := heat_load_daily_table d |}).

Definition set_noaa_heatwave_flags
    (v : option (list NoaaHeatwaveFlags.row)) : M unit :=
  fun d => (Done tt,
            {| noaa_hourly_avg := noaa_hourly_avg d;
               eia_load_hourly := eia_load_hourly d;
               noaa_daily_temp := noaa_daily_temp d;
               noaa_temp_thresholds := noaa_temp_thresholds d;
               noaa_heatwave_flags := v;
               eia_daily_load := eia_daily_load d;
               heat_load_daily_table := heat_load_daily_table d |}).

Definition set_eia_daily_load (v : option (list EiaDailyLoad.row)) : M unit :=
  fun d => (Done tt,
            {| noaa_hourly_avg := noaa_hourly_avg d;
               eia_load_hourly := eia_load_hourly d;
               noaa_daily_temp := noaa_daily_temp d;
               noaa_temp_thresholds := noaa_temp_thresholds d;
               noaa_heatwave_flags := noaa_heatwave_flags d;
               eia_daily_load := v;
               heat_load_daily_table := heat_load_daily_table d |}).

Definition set_heat_load_daily (v : option (list HeatLoadDaily.row)) : M unit :=
  fun d => (Done tt,
            {| noaa_hourly_avg := noaa_hourly_avg d;
               eia_load_hourly := eia_load_hourly d;
               noaa_daily_temp := noaa_daily_temp d;
               noaa_temp_thresholds := noaa_temp_thresholds d;
               noaa_heatwave_flags := noaa_heatwave_flags d;
               eia_daily_load := eia_daily_load d;
               heat_load_daily_table := v |}).

(** Each stage returns the row count it prints. *)
Definition build_noaa_daily : M nat :=
  set_noaa_daily_temp None ;;;
  h <- from "noaa_hourly_avg" noaa_hourly_avg ;;
  set_noaa_daily_temp (Some (select_noaa_daily_temp h)) ;;;
  t <- from "noaa_daily_temp" noaa_daily_temp ;;
  ret (length t).

Definition build_noaa_thresholds : M nat :=
  set_noaa_temp_thresholds None ;;;
  n <- from "noaa_daily_temp" noaa_daily_temp ;;
  set_noaa_temp_thresholds (Some (select_noaa_temp_thresholds n)) ;;;
  t <- from "noaa_temp_thresholds" noaa_temp_thresholds ;;
  ret (length t).

Definition build_noaa_heatwave_flags : M nat :=
  set_noaa_heatwave_flags None ;;;
  n <- from "noaa_daily_temp" noaa_daily_temp ;;
  t <- from "noaa_temp_thresholds" noaa_temp_thresholds ;;
  set_noaa_heatwave_flags (Some (select_noaa_heatwave_flags n t)) ;;;
  f <- from "noaa_heatwave_flags" noaa_heatwave_flags ;;
  ret (length f).

Definition build_eia_daily_load : M nat :=
  set_eia_daily_load None ;;;
  h <- from "eia_load_hourly" eia_load_hourly ;;
  set_eia_daily_load (Some (select_eia_daily_load h)) ;;;
  t <- from "eia_daily_load" eia_daily_load ;;
  ret (length t).

Definition heat_load_daily : M nat :=
  set_heat_load_daily None ;;;
  n <- from "noaa_daily_temp" noaa_daily_temp ;;
  t <- from "noaa_temp_thresholds" noaa_temp_thresholds ;;
  e <- from "eia_daily_load" eia_daily_load ;;
  set_heat_load_daily (Some (select_heat_load_daily n t e)) ;;;
  u <- from "heat_load_daily" heat_load_daily_table ;;
  ret (length u).

(** The [__main__] block. *)
Definition main : M unit :=
  build_noaa_daily ;;;
  build_noaa_thresholds ;;;
  build_noaa_heatwave_flags ;;;
  build_eia_daily_load ;;;
  heat_load_daily ;;;
  ret tt.

(* ================================================================== *)
(** ** Keys, groups and reference notions *)
(* ================================================================== *)

Definition daily_key (r : NoaaDailyTemp.row) : string * timestamp :=
  (NoaaDailyTemp.station r, NoaaDailyTemp.day_utc r).

Definition threshold_key (r : NoaaTempThresholds.row) : string * string :=
  (NoaaTempThresholds.station r, NoaaTempThresholds.mmdd r).

Definition load_key (r : EiaDailyLoad.row) : string * timestamp :=
  (EiaDailyLoad.region r, EiaDailyLoad.day_utc r).

Definition hourly_key (r : NoaaHourlyAvg.row) : string * timestamp :=
  (NoaaHourlyAvg.station r, date_trunc_day (NoaaHourlyAvg.hour_utc r)).

(** The daily row that a unified row was built from. *)
Definition left_side (r : HeatLoadDaily.row) : NoaaDailyTemp.row :=
  {| NoaaDailyTemp.station := HeatLoadDaily.station r;
     NoaaDailyTemp.day_utc := HeatLoadDaily.day_utc r;
     NoaaDailyTemp.daily_max_temp_C := HeatLoadDaily.daily_max_temp_C r;
     NoaaDailyTemp.avg_temp_C := HeatLoadDaily.avg_temp_C r |}.

(** The daily row that a flag row was built from. *)
Definition flag_left_side (r : NoaaHeatwaveFlags.row) : NoaaDailyTemp.row :=
  {| NoaaDailyTemp.station := NoaaHeatwaveFlags.station r;
     NoaaDailyTemp.day_utc := NoaaHeatwaveFlags.day_utc r;
     NoaaDailyTemp.daily_max_temp_C := NoaaHeatwaveFlags.daily_max_temp_C r;
     NoaaDailyTemp.avg_temp_C := NoaaHeatwaveFlags.avg_temp_C r |}.

Definition is_not_null (A : Type) (x : option A) : bool :=
  match x with
  | Some _ => true
  | None => false
  end.

(** The rows of the hourly table that fall on one station and day. *)
Definition hourly_group (k : string * timestamp)
    (h : list NoaaHourlyAvg.row) : list NoaaHourlyAvg.row :=
  Sql.group_rows name_day_eq_dec hourly_key k h.

(** The rows of the daily table with one key. *)
Definition daily_rows_of (k : string * timestamp)
    (n : list NoaaDailyTemp.row) : list NoaaDailyTemp.row :=
  filter (fun d => if name_day_eq_dec (daily_key d) k then true else false) n.

(** The de-duplicated hourly rows of one region and day. *)
Definition unique_group (k : string * timestamp)
    (l : list EiaLoadHourly.row) : list EiaLoadHourly.row :=
  Sql.group_rows name_day_eq_dec region_day k (hourly_unique l).

(** The rows of the daily load table with one key. *)
Definition load_rows_of (k : string * timestamp)
    (e : list EiaDailyLoad.row) : list EiaDailyLoad.row :=
  filter (fun o => if name_day_eq_dec (load_key o) k then true else false) e.

(** The rows of the daily table of one station and calendar day, and
    the samples they give the quantile. *)
Definition daily_group (k : string * string)
    (n : list NoaaDailyTemp.row) : list NoaaDailyTemp.row :=
  Sql.group_rows name_mmdd_eq_dec station_mmdd k n.

Definition samples_of (k : string * string)
    (n : list NoaaDailyTemp.row) : list Qc :=
  Sql.non_null (map NoaaDailyTemp.daily_max_temp_C (daily_group k n)).


(** Minimum and maximum of a non-empty list of samples. *)
Definition least (x : Qc) (xs : list Qc) : Qc := fold_right Sql.Qcmin x xs.
Definition greatest (x : Qc) (xs : list Qc) : Qc := fold_right Sql.Qcmax x xs.

Definition Qc_of_Z (z : Z) : Qc := Q2Qc (inject_Z z).

(* ================================================================== *)
(** ** Sample tables *)
(* ================================================================== *)

Definition at_hour (y : Z) (m d h : nat) : timestamp :=
  {| ts_year := y; ts_month := m; ts_day := d;
     ts_hour := h; ts_minute := 0; ts_second := 0 |}.

(** A value given in tenths: [tenths 341] is 34.1. *)
Definition tenths (n : Z) : Qc := Q2Qc (n # 10).

Definition reading (s : string) (y : Z) (m d h : nat) (t : option Z)
  : NoaaHourlyAvg.row :=
  {| NoaaHourlyAvg.station := s;
     NoaaHourlyAvg.hour_utc := at_hour y m d h;
     NoaaHourlyAvg.temp_C := option_map tenths t |}.

Definition demand (s : string) (y : Z) (m d h : nat) (v : option Z)
  : EiaLoadHourly.row :=
  {| EiaLoadHourly.region := s;
     EiaLoadHourly.hour_utc := at_hour y m d h;
     EiaLoadHourly.load_mwh := option_map tenths v |}.

(** One sensor outage on 4 July 2020, one reading a year later. *)
Definition outage_then_reading : list NoaaHourlyAvg.row :=
  [reading "IAD" 2020 7 4 12 None; reading "IAD" 2021 7 4 12 (Some 300%Z)].

(** A day on which the only hourly row has a NULL temperature. *)
Definition outage_only : list NoaaHourlyAvg.row :=
  [reading "IAD" 2020 7 4 12 None].

(** A station that the CASE expressions do not list. *)
Definition unlisted_station : list NoaaHourlyAvg.row :=
  [reading "XYZ" 2021 7 4 12 (Some 310%Z)].

Definition isne_load : list EiaLoadHourly.row :=
  [demand "ISNE" 2021 7 4 14 (Some 5000%Z)].

(** Two identical rows of one hour, as the feed replays them. *)
Definition replayed : list EiaLoadHourly.row :=
  [demand "RX" 2023 7 4 14 (Some 5000%Z); demand "RX" 2023 7 4 14 (Some 5000%Z)].

Definition outage_daily : list NoaaDailyTemp.row :=
  select_noaa_daily_temp outage_then_reading.

Definition outage_thresholds : list NoaaTempThresholds.row :=
  select_noaa_temp_thresholds outage_daily.

Definition outage_unified : list HeatLoadDaily.row :=
  select_heat_load_daily outage_daily outage_thresholds [].

Definition null_unified_row : HeatLoadDaily.row :=
  {| HeatLoadDaily.station := ""; HeatLoadDaily.region := None;
     HeatLoadDaily.day_utc := at_hour 0 0 0 0;
     HeatLoadDaily.daily_max_temp_C := None;
     HeatLoadDaily.avg_temp_C := None;
     HeatLoadDaily.t90_max := None; HeatLoadDaily.is_hot_day := None;
     HeatLoadDaily.daily_total_mwh := None;
     HeatLoadDaily.daily_peak_mwh := None |}.

(** The unified row of the outage day, 4 July 2020. *)
Definition outage_row : HeatLoadDaily.row := hd null_unified_row outage_unified.

Definition unlisted_daily : list NoaaDailyTemp.row :=
  select_noaa_daily_temp unlisted_station.

(** The catalog before the join stage, for the station "XYZ". *)
Definition unlisted_db : db :=
  {| noaa_hourly_avg := Some unlisted_station;
     eia_load_hourly := Some isne_load;
     noaa_daily_temp := Some unlisted_daily;
     noaa_temp_thresholds := Some (select_noaa_temp_thresholds unlisted_daily);
     noaa_heatwave_flags := None;
     eia_daily_load := Some (select_eia_daily_load isne_load);
     heat_load_daily_table := None |}.

Definition unlisted_row : NoaaDailyTemp.row := 
  {| NoaaDailyTemp.station := "XYZ";
     NoaaDailyTemp.day_utc := at_hour 2021 7 4 0;
     NoaaDailyTemp.daily_max_temp_C := None;
     NoaaDailyTemp.avg_temp_C := None |}.

Definition null_threshold_row : NoaaTempThresholds.row :=
  {| NoaaTempThresholds.station := ""; NoaaTempThresholds.mmdd := "";
     NoaaTempThresholds.t90_max := None |}.

(* ================================================================== *)
(** ** Keys and order of the remaining tables *)
(* ================================================================== *)

Definition flag_key (r : NoaaHeatwaveFlags.row) : string * timestamp :=
  (NoaaHeatwaveFlags.station r, NoaaHeatwaveFlags.day_utc r).

Definition unified_key (r : HeatLoadDaily.row) : string * timestamp :=
  (HeatLoadDaily.station r, HeatLoadDaily.day_utc r).

(** Month and day of the month as [strftime] can print them on two
    digits. *)
Definition two_digit_date (ts : timestamp) : Prop :=
  (ts_month ts < 100)%nat /\ (ts_day ts < 100)%nat.

(* ================================================================== *)
(** ** analysis.py: loading the unified table *)
(* ================================================================== *)

(** The sort key of [ORDER BY region, day_utc]; a NULL region sorts
    last. *)
Definition region_day_leb (a b : option string * timestamp) : bool :=
  match fst a, fst b with
  | Some x, Some y => if string_dec x y then timestamp_leb (snd a) (snd b)
                      else String.leb x y
  | Some _, None => true
  | None, Some _ => false
  | None, None => timestamp_leb (snd a) (snd b)
  end.

(** [.fillna(0).astype(int)] on the column [is_hot_day]. *)
Definition fillna_0_astype_int (x : option bool) : Z :=
  match x with
  | Some true => 1%Z
  | Some false => 0%Z
  | None => 0%Z
  end.

(** [.astype(bool)] on an integer. *)
Definition astype_bool (z : Z) : bool := negb (z =? 0)%Z.

Module Analysis.
(** A row of the data frame: the nine columns selected from
    [heat_load_daily] and the added column [is_hot_bool]. *)
Record row : Type := {
  columns : HeatLoadDaily.row;
  is_hot_bool : bool
}.
End Analysis.

(** [load_data]: the connection is read-only; the columns are already
    typed, so [to_datetime] and [to_numeric] leave them as they are. *)
Definition load_data : M (list Analysis.row) :=
  u <- from "heat_load_daily" heat_load_daily_table ;;
  ret (map (fun r =>
              {| Analysis.columns := r;
                 Analysis.is_hot_bool :=
                   astype_bool
                     (fillna_0_astype_int (HeatLoadDaily.is_hot_day r)) |})
           (Sql.order_by region_day_leb
              (fun r => (HeatLoadDaily.region r, HeatLoadDaily.day_utc r))
              u)).

Definition outage_flags : list NoaaHeatwaveFlags.row :=
  select_noaa_heatwave_flags outage_daily outage_thresholds.

Definition null_flag_row : NoaaHeatwaveFlags.row :=
  {| NoaaHeatwaveFlags.station := "";
     NoaaHeatwaveFlags.day_utc := at_hour 0 0 0 0;
     NoaaHeatwaveFlags.daily_max_temp_C := None;
     NoaaHeatwaveFlags.avg_temp_C := None;
     NoaaHeatwaveFlags.t90_max := None;
     NoaaHeatwaveFlags.is_hot_day := 0 |}.

(** The flag row of the outage day, 4 July 2020. *)
Definition outage_flag : NoaaHeatwaveFlags.row := hd null_flag_row outage_flags.


(** A station that the CASE expressions list. *)
Definition mapped_station : list NoaaHourlyAvg.row :=
  [reading "BOS" 2021 7 4 12 (Some 250%Z)].

Definition mapped_unified : list HeatLoadDaily.row :=
  let n := select_noaa_daily_temp mapped_station in
  select_heat_load_daily n (select_noaa_temp_thresholds n)
                         (select_eia_daily_load isne_load).

(** A catalog that holds the unified table of the outage scenario. *)
Definition outage_db : db :=
  {| noaa_hourly_avg := Some outage_then_reading;
     eia_load_hourly := Some [];
     noaa_daily_temp := Some outage_daily;
     noaa_temp_thresholds := Some outage_thresholds;
     noaa_heatwave_flags := Some outage_flags;
     eia_daily_load := Some [];
     heat_load_daily_table := Some outage_unified |}.

(* ================================================================== *)
(** ** individual_scores.py: the exemption score *)
(* ================================================================== *)

(** [x <= y] and [x < y] on floats that are not NaN. *)
Definition Qcleb (x y : Qc) : bool := if Qclt_le_dec y x then false else true.
Definition Qcltb (x y : Qc) : bool := if Qclt_le_dec x y then true else false.

(** [x in [...]] on strings. *)
Definition string_in (x : string) (l : list string) : bool :=
  existsb (String.eqb x) l.

(** A record of [data.json], with the columns that the score reads.
    The file itself is not in the repository; the columns are those of
    [cleaned_va_datacenters] in clean_va_data.py.  A numeric column
    holds a number or NaN ([None]) once [pd.to_numeric(errors='coerce')]
    has been applied; [ej] lists the values of the columns whose name
    starts with 'ej_'. *)
Module Facility.
Record row : Type := {
  capacity_mw : option Qc;
  pop_within_mile : option Qc;
  water_stress_index : option string;
  ej : list (option Qc)
}.
End Facility.

(** [df[ej_cols].max(axis=1)]: the maximum of the columns that are not
    NaN, NaN when all are. *)
Definition ej_max_percentile (r : Facility.row) : option Qc :=
  Sql.sql_max (Facility.ej r).

(** [df['ej_max_percentile'] >= 80]: a comparison with NaN is False. *)
Definition ej_concern (r : Facility.row) : bool :=
  match ej_max_percentile r with
  | Some m => Qcleb (Qc_of_Z 80) m
  | None => false
  end.

Definition capacity_numeric (r : Facility.row) : option Qc :=
  Facility.capacity_mw r.

Section Scoring.
(** The two float formats of the f-strings, [{x:.0f}] and
    [{int(x):,}]. *)
Variable format_0f : Qc -> string.
Variable format_int_commas : Qc -> string.

(** [calculate_exemption_score(row)]: the score, the tier and the
    reasons, each step adding to [score] and appending to [reasons]. *)
Definition calculate_exemption_score (row : Facility.row)
  : Z * string * list string :=
  let score := 0%Z in
  let reasons := @nil string in
  (* 1. POWER (28 pts) *)
  let '(score, reasons) :=
    match capacity_numeric row with
    | Some cap =>
        if Qcleb cap (Qc_of_Z 20) then ((score + 28)%Z, reasons)
        else if Qcleb cap (Qc_of_Z 75) then ((score + 18)%Z, reasons)
        else if Qcleb cap (Qc_of_Z 200) then ((score + 7)%Z, reasons)
        else ((score + 0)%Z,
              reasons ++ ["High capacity (" ++ format_0f cap ++ " MW)"]%string)
    | None => ((score + 0)%Z, reasons ++ ["No capacity data"%string])
    end in
  (* 2. ENVIRONMENTAL JUSTICE (20 pts) *)
  let '(score, reasons) :=
    if negb (ej_concern row) then ((score + 20)%Z, reasons)
    else ((score + 0)%Z,
          reasons ++ [("Environmental justice concerns (max percentile: "
                       ++ match ej_max_percentile row with
                          | Some m => format_0f m
                          | None => "nan"
                          end ++ ")")%string]) in
  (* 3. POPULATION (15 pts) *)
  let '(score, reasons) :=
    match Facility.pop_within_mile row with
    | Some pop_num =>
        if Qcltb pop_num (Qc_of_Z 1000) then ((score + 15)%Z, reasons)
        else if Qcltb pop_num (Qc_of_Z 5000) then
          ((score + 10)%Z,
           reasons ++ [("Population exposure: " ++ format_0f pop_num
                        ++ " residents")%string])
        else if Qcltb pop_num (Qc_of_Z 10000) then
          ((score + 5)%Z,
           reasons ++ [("High population exposure: " ++ format_0f pop_num
                        ++ " residents")%string])
        else
          ((score + 0)%Z,
           reasons ++ [("Very high population exposure: " ++ format_0f pop_num
                        ++ " residents")%string])
    | None => ((score + 0)%Z, reasons ++ ["No population data"%string])
    end in
  (* 4. WATER STRESS (12 pts) *)
  let '(score, reasons) :=
    match Facility.water_stress_index row with
    | Some water_stress =>
        if string_in water_stress ["Low (<10%)"; "Low - Medium (10-20%)"]%string
        then ((score + 12)%Z, reasons)
        else if string_in water_stress ["Medium - High (20-40%)"%string]
        then ((score + 6)%Z, reasons ++ ["Medium-high water stress"%string])
        else if string_in water_stress
                  ["High (40-80%)"; "Extremely High (>80%)"]%string
        then ((score + 0)%Z,
              reasons ++ [("High water stress (" ++ water_stress ++ ")")%string])
        else ((score + 0)%Z, reasons)
    | None => ((score + 0)%Z, reasons)
    end in
  (* 5-8. REMAINING (25 pts): all 0, no data *)
  let reasons :=
    reasons ++ ["No renewable energy data (0/10)";
                "No CO2 emissions data (0/7)";
                "No community engagement data (0/4)";
                "No disclosure data (0/4)"]%string in
  let tier :=
    if (80 <=? score)%Z then "Full Exemption (100%)"%string
    else if (60 <=? score)%Z then "Partial Exemption (50%)"%string
    else "No Exemption (0%)"%string in
  (score, tier, reasons).

(** [print_detailed_breakdown(row, idx)], up to its first [print] of the
    results: the running [total] and the dictionary [score_breakdown],
    each category with its points, its maximum and its detail text.
    What is printed is not modelled. *)
Definition print_detailed_breakdown (row : Facility.row)
  : Z * list (string * (Z * Z * string)) :=
  let total := 0%Z in
  (* 1. POWER (28 pts) *)
  let '(power_score, power_detail) :=
    match capacity_numeric row with
    | Some cap =>
        if Qcleb cap (Qc_of_Z 20)
        then (28%Z, (format_0f cap ++ " MW (≤20)")%string)
        else if Qcleb cap (Qc_of_Z 75)
        then (18%Z, (format_0f cap ++ " MW (20-75)")%string)
        else if Qcleb cap (Qc_of_Z 200)
        then (7%Z, (format_0f cap ++ " MW (75-200)")%string)
        else (0%Z, (format_0f cap ++ " MW (>200)")%string)
    | None => (0%Z, "No data"%string)
    end in
  let total := (total + power_score)%Z in
  (* 2. ENVIRONMENTAL JUSTICE (20 pts) *)
  let '(ej_score, ej_detail) :=
    if negb (ej_concern row)
    then (20%Z, "No EJ concerns (all percentiles < 80)"%string)
    else (0%Z, ("EJ flag (max percentile: "
                ++ match ej_max_percentile row with
                   | Some m => format_0f m
                   | None => "nan"
                   end ++ ")")%string) in
  let total := (total + ej_score)%Z in
  (* 3. POPULATION (15 pts) *)
  let '(pop_score, pop_detail) :=
    match Facility.pop_within_mile row with
    | Some pop_num =>
        if Qcltb pop_num (Qc_of_Z 1000)
        then (15%Z, (format_int_commas pop_num ++ " residents (<1,000)")%string)
        else if Qcltb pop_num (Qc_of_Z 5000)
        then (10%Z, (format_int_commas pop_num ++ " residents (1k-5k)")%string)
        else if Qcltb pop_num (Qc_of_Z 10000)
        then (5%Z, (format_int_commas pop_num ++ " residents (5k-10k)")%string)
        else (0%Z, (format_int_commas pop_num ++ " residents (≥10k)")%string)
    | None => (0%Z, "No data"%string)
    end in
  let total := (total + pop_score)%Z in
  (* 4. WATER STRESS (12 pts) *)
  let '(water_score, water_detail) :=
    match Facility.water_stress_index row with
    | Some water_stress =>
        if string_in water_stress ["Low (<10%)"; "Low - Medium (10-20%)"]%string
        then (12%Z, ("Low stress: " ++ water_stress)%string)
        else if string_in water_stress ["Medium - High (20-40%)"%string]
        then (6%Z, ("Med-high stress: " ++ water_stress)%string)
        else if string_in water_stress
                  ["High (40-80%)"; "Extremely High (>80%)"]%string
        then (0%Z, ("High/extreme stress: " ++ water_stress)%string)
        else (0%Z, "No data"%string)
    | None => (0%Z, "No data"%string)
    end in
  let total := (total + water_score)%Z in
  (total,
   [("Power", (power_score, 28, power_detail));
    ("Environmental Justice", (ej_score, 20, ej_detail));
    ("Population", (pop_score, 15, pop_detail));
    ("Water Stress", (water_score, 12, water_detail));
    ("Renewable Energy", (0, 10, "No data available"));
    ("CO2 Emissions", (0, 7, "No data available"));
    ("Community Engagement", (0, 4, "No data available"));
    ("Disclosure", (0, 4, "No data available"))]%string%Z).
End Scoring.

(** The points of the four scored categories, one by one. *)
Definition power_points (row : Facility.row) : Z :=
  match capacity_numeric row with
  | Some cap =>
      if Qcleb cap (Qc_of_Z 20) then 28
      else if Qcleb cap (Qc_of_Z 75) then 18
      else if Qcleb cap (Qc_of_Z 200) then 7
      else 0
  | None => 0
  end.

Definition ej_points (row : Facility.row) : Z :=
  if negb (ej_concern row) then 20 else 0.

Definition population_points (row : Facility.row) : Z :=
  match Facility.pop_within_mile row with
  | Some pop_num =>
      if Qcltb pop_num (Qc_of_Z 1000) then 15
      else if Qcltb pop_num (Qc_of_Z 5000) then 10
      else if Qcltb pop_num (Qc_of_Z 10000) then 5
      else 0
  | None => 0
  end.

Definition water_points (row : Facility.row) : Z :=
  match Facility.water_stress_index row with
  | Some water_stress =>
      if string_in water_stress ["Low (<10%)"; "Low - Medium (10-20%)"]%string
      then 12
      else if string_in water_stress ["Medium - High (20-40%)"%string] then 6
      else 0
  | None => 0
  end.

(** The four notes that close every list of reasons, and the tier of
    a score. *)
Definition data_notes : list string :=
  ["No renewable energy data (0/10)"; "No CO2 emissions data (0/7)";
   "No community engagement data (0/4)"; "No disclosure data (0/4)"]%string.

Definition tier_of (score : Z) : string :=
  if (80 <=? score)%Z then "Full Exemption (100%)"%string
  else if (60 <=? score)%Z then "Partial Exemption (50%)"%string
  else "No Exemption (0%)"%string.

(** The positions of the five facilities printed, in the frame of [n]
    rows sorted by score. *)
Definition sample_indices (n : Z) : list Z :=
  [0; n / 4; n / 2; 3 * n / 4; n - 1]%Z.

(** [df.iloc[idx]] on [n] rows: a position from [-n] to [n - 1], counted
    from the end when negative; anything else raises IndexError. *)
Definition iloc (A : Type) (l : list A) (idx : Z) : option A :=
  let n := Z.of_nat (length l) in
  if ((0 <=? idx) && (idx <? n))%Z%bool then nth_error l (Z.to_nat idx)
  else if ((- n <=? idx) && (idx <? 0))%Z%bool
       then nth_error l (Z.to_nat (n + idx))
       else None.

Definition sample_facility : Facility.row :=
  {| Facility.capacity_mw := Some (Qc_of_Z 50);
     Facility.pop_within_mile := Some (Qc_of_Z 800);
     Facility.water_stress_index := Some "Low (<10%)"%string;
     Facility.ej := [Some (Qc_of_Z 40); None; Some (Qc_of_Z 72)] |}.

Definition no_format (x : Qc) : string := ""%string.

(* ================================================================== *)
(** ** Facts about the SQL operators *)
(* ================================================================== *)

Section BagFacts.
Variable A : Type.
Variable dec : forall x y : A, {x = y} + {x <> y}.

Lemma differs_true (x y : A) : Sql.differs dec x y = true <-> x <> y.
Proof. unfold Sql.differs. destruct (dec x y); split; congruence. Qed.

Lemma distinct_In (x : A) (l : list A) :
  In x (Sql.distinct dec l) <-> In x l.
Proof.
  induction l as [|a l IH]; simpl; [tauto|].
  rewrite filter_In, differs_true, IH.
  destruct (dec a x); tauto.
Qed.

Lemma distinct_NoDup (l : list A) : NoDup (Sql.distinct dec l).
Proof.
  induction l as [|a l IH]; simpl; constructor.
  - rewrite filter_In, differs_true. tauto.
  - now apply NoDup_filter.
Qed.

Lemma filter_twice (p : A -> bool) (l : list A) :
  filter p (filter p l) = filter p l.
Proof.
  induction l as [|a l IH]; simpl; [reflexivity|].
  destruct (p a) eqn:E; simpl; [rewrite E|]; now rewrite ?IH.
Qed.

(** A second copy of the head row is dropped. *)
Lemma distinct_head_twice (x : A) (l : list A) :
  Sql.distinct dec (x :: x :: l) = Sql.distinct dec (x :: l).
Proof.
  simpl. f_equal.
  assert (Sql.differs dec x x = false) as ->.
  { unfold Sql.differs. destruct (dec x x); congruence. }
  apply filter_twice.
Qed.

Lemma distinct_repeat (x : A) (n : nat) (l : list A) :
  Sql.distinct dec (repeat x (S n) ++ l) = Sql.distinct dec (x :: l).
Proof.
  induction n as [|n IH]; [reflexivity|].
  change (repeat x (S (S n)) ++ l) with (x :: x :: (repeat x n ++ l)).
  rewrite distinct_head_twice. exact IH.
Qed.

Lemma distinct_prefix (p l1 l2 : list A) :
  Sql.distinct dec l1 = Sql.distinct dec l2 ->
  Sql.distinct dec (p ++ l1) = Sql.distinct dec (p ++ l2).
Proof.
  intros H. induction p as [|a p IH]; simpl; [exact H|]. now rewrite IH.
Qed.




Lemma count_occ_filter (p : A -> bool) (x : A) (l : list A) :
  p x = true -> count_occ dec (filter p l) x = count_occ dec l x.
Proof.
  intros Hp. induction l as [|a l IH]; simpl; [reflexivity|].
  destruct (dec a x) as [->|Hne].
  - rewrite Hp. simpl. destruct (dec x x); congruence.
  - destruct (p a); simpl; [destruct (dec a x); congruence|exact IH].
Qed.

Lemma distinct_count (x : A) (l : list A) :
  In x l -> count_occ dec (Sql.distinct dec l) x = 1%nat.
Proof.
  intros H. apply NoDup_count_occ'; [apply distinct_NoDup|].
  now apply distinct_In.
Qed.
End BagFacts.

Section KeyFacts.
Variables R K : Type.
Variable f : R -> K.

(** At most one row carries a given value of a unique key. *)
Lemma unique_key_le (p : R -> bool) (k : K) (r : list R) :
  NoDup (map f r) ->
  (forall y, In y r -> p y = true -> f y = k) ->
  (length (filter p r) <= 1)%nat.
Proof.
  induction r as [|a r IH]; simpl; intros ND Hp; [lia|].
  inversion ND as [|? ? Hnot ND']; subst.
  destruct (p a) eqn:E; [|apply IH; auto].
  simpl. enough (filter p r = []) as -> by (simpl; lia).
  destruct (filter p r) as [|b ?] eqn:F; [reflexivity|exfalso].
  assert (In b (filter p r)) as Hb by (rewrite F; now left).
  apply filter_In in Hb. destruct Hb as [Hb Hpb].
  apply Hnot. rewrite (Hp a (or_introl eq_refl) E).
  rewrite <- (Hp b (or_intror Hb) Hpb). now apply in_map.
Qed.

Lemma unique_key_one (p : R -> bool) (k : K) (r : list R) :
  NoDup (map f r) ->
  (forall y, In y r -> (p y = true <-> f y = k)) ->
  In k (map f r) ->
  length (filter p r) = 1%nat.
Proof.
  intros ND Hp Hk.
  assert (length (filter p r) <= 1)%nat as Hle.
  { apply unique_key_le with (k := k); auto. intros y Hy. now apply Hp. }
  apply in_map_iff in Hk. destruct Hk as [y [Hy Hin]].
  assert (In y (filter p r)) as Hf.
  { apply filter_In. split; auto. now apply Hp. }
  destruct (filter p r); simpl in *; [tauto|lia].
Qed.
End KeyFacts.

Section JoinFacts.
Variables L R : Type.
Variable on : L -> R -> bool.

Lemma filter_nil_iff (p : R -> bool) (r : list R) :
  filter p r = [] <-> forall y, In y r -> p y = false.
Proof.
  induction r as [|a r IH]; simpl; [tauto|].
  destruct (p a) eqn:E; split.
  - discriminate.
  - intros H. specialize (H a (or_introl eq_refl)). congruence.
  - intros H y [<-|Hy]; auto. now apply IH.
  - intros H. apply IH. auto.
Qed.

Lemma left_join_In (x : L) (oy : option R) (l : list L) (r : list R) :
  In (x, oy) (Sql.left_join on l r) <-> In x l /\ Sql.left_match on x r oy.
Proof.
  unfold Sql.left_join, Sql.left_match. rewrite in_flat_map. split.
  - intros [x' [Hx' Hin]].
    destruct (filter (on x') r) as [|b ms] eqn:F.
    + destruct Hin as [Heq|[]]. inversion Heq; subst. split; auto.
      left. split; auto. now apply filter_nil_iff.
    + apply in_map_iff in Hin. destruct Hin as [y [Heq Hy]].
      inversion Heq; subst. rewrite <- F in Hy.
      apply filter_In in Hy. split; auto. right. exists y. tauto.
  - intros [Hx [[-> Hnone]|[y [-> [Hy Hon]]]]]; exists x; split; auto.
    + apply filter_nil_iff in Hnone. rewrite Hnone. now left.
    + assert (In y (filter (on x) r)) as Hf by (apply filter_In; tauto).
      destruct (filter (on x) r) as [|b ms]; [destruct Hf|].
      apply in_map_iff. now exists y.
Qed.

Lemma left_match_exists (x : L) (r : list R) :
  exists oy, Sql.left_match on x r oy.
Proof.
  unfold Sql.left_match. destruct (filter (on x) r) as [|y ms] eqn:F.
  - exists None. left. split; auto. now apply filter_nil_iff.
  - exists (Some y). right. exists y.
    assert (In y (filter (on x) r)) as Hy by (rewrite F; now left).
    apply filter_In in Hy. tauto.
Qed.

(** With at most one match per left row, a LEFT JOIN keeps the left
    table as it is: no row dropped, none repeated. *)
Lemma left_join_left (l : list L) (r : list R) :
  (forall x, In x l -> (length (filter (on x) r) <= 1)%nat) ->
  map fst (Sql.left_join on l r) = l.
Proof.
  unfold Sql.left_join.
  induction l as [|a l IH]; intros H; [reflexivity|].
  cbn [flat_map]. rewrite map_app, IH by (intros; apply H; now right).
  specialize (H a (or_introl eq_refl)).
  destruct (filter (on a) r) as [|b [|c ms]]; simpl in *; [reflexivity..|lia].
Qed.

(** With exactly one match per left row, so does an inner JOIN. *)
Lemma inner_join_left (l : list L) (r : list R) :
  (forall x, In x l -> length (filter (on x) r) = 1%nat) ->
  map fst (Sql.inner_join on l r) = l.
Proof.
  unfold Sql.inner_join.
  induction l as [|a l IH]; intros H; [reflexivity|].
  cbn [flat_map]. rewrite map_app, IH by (intros; apply H; now right).
  specialize (H a (or_introl eq_refl)).
  destruct (filter (on a) r) as [|b [|c ms]]; simpl in *;
    [discriminate|reflexivity|discriminate].
Qed.
End JoinFacts.

Section OrderFacts.
Variables A K : Type.
Variable leb : K -> K -> bool.
Variable key : A -> K.

Lemma insert_by_perm (x : A) (l : list A) :
  Permutation (Sql.insert_by leb key x l) (x :: l).
Proof.
  induction l as [|y l IH]; simpl; [reflexivity|].
  destruct (leb (key x) (key y)); [reflexivity|].
  rewrite IH. apply perm_swap.
Qed.

Lemma order_by_perm (l : list A) : Permutation (Sql.order_by leb key l) l.
Proof.
  induction l as [|x l IH]; simpl; [reflexivity|].
  rewrite insert_by_perm. now constructor.
Qed.

Lemma order_by_In (x : A) (l : list A) :
  In x (Sql.order_by leb key l) <-> In x l.
Proof.
  split; apply Permutation_in;
    [apply order_by_perm | apply Permutation_sym, order_by_perm].
Qed.

Lemma order_by_length (l : list A) :
  length (Sql.order_by leb key l) = length l.
Proof. apply Permutation_length, order_by_perm. Qed.
End OrderFacts.

Section GroupFacts.
Variables A K : Type.
Variable dec : forall x y : K, {x = y} + {x <> y}.
Variable key : A -> K.

Lemma group_rows_In (r : A) (k : K) (l : list A) :
  In r (Sql.group_rows dec key k l) <-> In r l /\ key r = k.
Proof.
  unfold Sql.group_rows. rewrite filter_In.
  destruct (dec (key r) k); split; intros [? ?]; split; congruence.
Qed.

Lemma group_by_keys (l : list A) :
  map fst (Sql.group_by dec key l) = Sql.distinct dec (map key l).
Proof. unfold Sql.group_by. rewrite map_map. simpl. apply map_id. Qed.

Lemma group_by_In (g : K * list A) (l : list A) :
  In g (Sql.group_by dec key l) <->
  In (fst g) (map key l) /\ snd g = Sql.group_rows dec key (fst g) l.
Proof.
  unfold Sql.group_by. rewrite in_map_iff. split.
  - intros [k [<- Hk]]. simpl. split; auto. now apply distinct_In in Hk.
  - intros [Hk Hg]. exists (fst g). split.
    + rewrite <- Hg. now destruct g.
    + now apply distinct_In.
Qed.

Lemma group_by_NoDup (l : list A) : NoDup (map fst (Sql.group_by dec key l)).
Proof. rewrite group_by_keys. apply distinct_NoDup. Qed.
End GroupFacts.

Lemma non_null_filter (A : Type) (l : list (option A)) :
  Sql.non_null (filter (@is_not_null A) l) = Sql.non_null l.
Proof.
  induction l as [|[x|] l IH]; simpl; [reflexivity| |exact IH]. now rewrite IH.
Qed.

Lemma non_null_all_null (A : Type) (l : list (option A)) :
  (forall x, In x l -> x = None) -> Sql.non_null l = [].
Proof.
  induction l as [|[x|] l IH]; simpl; intros H; [reflexivity| |].
  - specialize (H (Some x) (or_introl eq_refl)). discriminate.
  - apply IH. auto.
Qed.

Section Rounding.


Lemma Qfloor_nonneg (x : Q) : (0 <= x)%Q -> (0 <= Qfloor x)%Z.
Proof. intros H. apply Qfloor_resp_le in H. exact H. Qed.

Lemma Qceiling_upper (x : Q) (z : Z) :
  (x <= inject_Z z)%Q -> (Qceiling x <= z)%Z.
Proof. intros H. apply Qceiling_resp_le in H. now rewrite Qceiling_Z in H. Qed.

Lemma Qc_of_nat_this (m : nat) :
  this (Sql.Qc_of_nat m) == inject_Z (Z.of_nat m).
Proof. exact (Qred_correct (inject_Z (Z.of_nat m))). Qed.

Lemma Qc_of_nat_floor (x : Qc) :
  (0 <= Qfloor x)%Z ->
  this (Sql.Qc_of_nat (Z.to_nat (Qfloor x))) == inject_Z (Qfloor x).
Proof. intros H. rewrite Qc_of_nat_this. now rewrite Z2Nat.id. Qed.
End Rounding.

Section Interpolation.
Lemma Qc_this_plus (a b : Qc) : (this (a + b) == this a + this b)%Q.
Proof. exact (Qred_correct (this a + this b)). Qed.

Lemma Qc_this_mult (a b : Qc) : (this (a * b) == this a * this b)%Q.
Proof. exact (Qred_correct (this a * this b)). Qed.

Lemma Qc_this_opp (a : Qc) : (this (- a) == - this a)%Q.
Proof. exact (Qred_correct (- this a)). Qed.

Lemma Qc_this_minus (a b : Qc) : (this (a - b) == this a - this b)%Q.
Proof. unfold Qcminus. rewrite Qc_this_plus, Qc_this_opp. reflexivity. Qed.

(** A linear interpolation stays between bounds of its end points. *)
Lemma lerp_between (m M lo hi g : Qc) :
  m <= lo -> lo <= M -> m <= hi -> hi <= M -> 0 <= g -> g <= 1 ->
  m <= lo * (1 - g) + hi * g /\ lo * (1 - g) + hi * g <= M.
Proof.
  unfold Qcle.
  rewrite Qc_this_plus, !Qc_this_mult, Qc_this_minus.
  change (this 0) with 0%Q. change (this 1) with 1%Q.
  generalize (this m) (this M) (this lo) (this hi) (this g).
  intros; split; nra.
Qed.
End Interpolation.

Section SortFacts.
Lemma insert_sorted_perm (x : Qc) (l : list Qc) :
  Permutation (Sql.insert_sorted x l) (x :: l).
Proof.
  induction l as [|y l IH]; simpl; [reflexivity|].
  destruct (Qclt_le_dec y x); [|reflexivity].
  rewrite IH. apply perm_swap.
Qed.

Lemma sort_asc_perm (l : list Qc) : Permutation (Sql.sort_asc l) l.
Proof.
  induction l as [|x l IH]; simpl; [reflexivity|].
  rewrite insert_sorted_perm. now constructor.
Qed.

Lemma least_le (x : Qc) (xs : list Qc) (y : Qc) :
  In y (x :: xs) -> least x xs <= y.
Proof.
  induction xs as [|a xs IH]; simpl.
  - intros [->|[]]. apply Qcle_refl.
  - unfold Sql.Qcmin.
    destruct (Qclt_le_dec (least x xs) a) as [Hlt|Hle]; intros [->|[->|H]].
    + apply IH. now left.
    + now apply Qclt_le_weak.
    + apply IH. now right.
    + eapply Qcle_trans; [exact Hle|]. apply IH. now left.
    + apply Qcle_refl.
    + eapply Qcle_trans; [exact Hle|]. apply IH. now right.
Qed.

Lemma greatest_ge (x : Qc) (xs : list Qc) (y : Qc) :
  In y (x :: xs) -> y <= greatest x xs.
Proof.
  induction xs as [|a xs IH]; simpl.
  - intros [->|[]]. apply Qcle_refl.
  - unfold Sql.Qcmax.
    destruct (Qclt_le_dec a (greatest x xs)) as [Hlt|Hle]; intros [->|[->|H]].
    + apply IH. now left.
    + now apply Qclt_le_weak.
    + apply IH. now right.
    + eapply Qcle_trans; [|exact Hle]. apply IH. now left.
    + apply Qcle_refl.
    + eapply Qcle_trans; [|exact Hle]. apply IH. now right.
Qed.
End SortFacts.

Section Rank.
Variable p : Qc.
Hypothesis p_nonneg : 0 <= p.
Hypothesis p_le_1 : p <= 1.

(** The real rank, its floor and its ceiling stay inside the samples. *)
Lemma rank_bounds (m : nat) :
  let RN := Sql.Qc_of_nat m * p in
  (0 <= Qfloor RN)%Z
  /\ (Qfloor RN <= Qceiling RN)%Z
  /\ (Qceiling RN <= Z.of_nat m)%Z
  /\ 0 <= RN - Sql.Qc_of_nat (Z.to_nat (Qfloor RN))
  /\ RN - Sql.Qc_of_nat (Z.to_nat (Qfloor RN)) <= 1.
Proof.
  intros RN.
  assert (0 <= inject_Z (Z.of_nat m))%Q as Hm.
  { change 0%Q with (inject_Z 0). rewrite <- Zle_Qle. lia. }
  assert (this RN == inject_Z (Z.of_nat m) * this p)%Q as HRN.
  { unfold RN. now rewrite Qc_this_mult, Qc_of_nat_this. }
  unfold Qcle in p_nonneg, p_le_1.
  change (this 0) with 0%Q in p_nonneg. change (this 1) with 1%Q in p_le_1.
  assert (0 <= Qfloor RN)%Z as Hf.
  { apply Qfloor_nonneg. rewrite HRN. nra. }
  split; [exact Hf|]. split; [|split].
  - rewrite Zle_Qle. apply Qle_floor_ceiling.
  - apply Qceiling_upper. rewrite HRN. nra.
  - pose proof (Qfloor_le RN) as Hlo. pose proof (Qlt_floor RN) as Hhi.
    rewrite inject_Z_plus in Hhi.
    unfold Qcle. rewrite Qc_this_minus, (Qc_of_nat_floor _ Hf).
    change (this 0) with 0%Q. change (this 1) with 1%Q.
    change (inject_Z 1) with 1%Q in Hhi.
    split; lra.
Qed.
End Rank.

Section Quantile.
Variable p : Qc.
Hypothesis p_nonneg : 0 <= p.
Hypothesis p_le_1 : p <= 1.

(** The continuous quantile of a non-empty sample is defined and lies
    between the least and the greatest sample. *)
Lemma quantile_cont_between (l : list (option Qc)) (x : Qc) (xs : list Qc) :
  Sql.non_null l = x :: xs ->
  exists v, Sql.quantile_cont l p = Some v
            /\ least x xs <= v /\ v <= greatest x xs.
Proof.
  intros Hl. unfold Sql.quantile_cont. rewrite Hl.
  pose proof (sort_asc_perm (x :: xs)) as Hperm.
  destruct (Sql.sort_asc (x :: xs)) as [|x0 rest] eqn:Hv.
  { apply Permutation_nil in Hperm. discriminate. }
  set (v := x0 :: rest) in *.
  destruct (rank_bounds p_nonneg p_le_1 (length v - 1))
    as [Hf [Hfc [Hc [Hg0 Hg1]]]].
  set (RN := Sql.Qc_of_nat (length v - 1) * p) in *.
  assert (forall i, (i < length v)%nat ->
            least x xs <= nth i v x0 /\ nth i v x0 <= greatest x xs) as Hin.
  { intros i Hi.
    assert (In (nth i v x0) (x :: xs)) as H
      by (apply (Permutation_in _ Hperm); now apply nth_In).
    split; [now apply least_le | now apply greatest_ge]. }
  assert (0 < length v)%nat as Hlen by (simpl; lia).
  assert (Z.to_nat (Qfloor RN) < length v)%nat as HF by lia.
  assert (Z.to_nat (Qceiling RN) < length v)%nat as HC by lia.
  destruct (Nat.eq_dec (Z.to_nat (Qceiling RN)) (Z.to_nat (Qfloor RN))).
  - eexists. split; [reflexivity|]. now apply Hin.
  - eexists. split; [reflexivity|].
    destruct (Hin _ HF), (Hin _ HC). now apply lerp_between.
Qed.

End Quantile.

Lemma q90_nonneg : 0 <= q90.
Proof. unfold Qcle. simpl. lra. Qed.

Lemma q90_le_1 : q90 <= 1.
Proof. unfold Qcle. simpl. lra. Qed.

Section AggregateFacts.
Lemma non_null_In (A : Type) (x : A) (l : list (option A)) :
  In x (Sql.non_null l) <-> In (Some x) l.
Proof.
  induction l as [|[y|] l IH]; simpl; [tauto| |].
  - rewrite IH. split; intros [H|H]; auto; left; congruence.
  - rewrite IH. split; [auto|]. intros [H|H]; [discriminate|auto].
Qed.


(** A left fold of [+] adds the start value to the sum of the list. *)
Lemma fold_left_max (xs : list Qc) (x : Qc) :
  In (fold_left Sql.Qcmax xs x) (x :: xs)
  /\ forall y, In y (x :: xs) -> y <= fold_left Sql.Qcmax xs x.
Proof.
  revert x. induction xs as [|a xs IH]; intros x; simpl.
  - split; [now left|]. intros y [->|[]]. apply Qcle_refl.
  - destruct (IH (Sql.Qcmax x a)) as [Hin Hub].
    assert (x <= Sql.Qcmax x a /\ a <= Sql.Qcmax x a
            /\ (Sql.Qcmax x a = x \/ Sql.Qcmax x a = a)) as [Hx [Ha Hc]].
    { unfold Sql.Qcmax. destruct (Qclt_le_dec x a) as [Hlt|Hle].
      - split; [now apply Qclt_le_weak|]. split; [apply Qcle_refl|now right].
      - split; [apply Qcle_refl|]. split; [exact Hle|now left]. }
    split.
    + destruct Hin as [Hin|Hin]; [|now right; right].
      destruct Hc as [Hc|Hc]; rewrite <- Hin, Hc; auto.
    + intros y [->|[->|Hy]].
      * eapply Qcle_trans; [exact Hx|]. apply Hub. now left.
      * eapply Qcle_trans; [exact Ha|]. apply Hub. now left.
      * apply Hub. now right.
Qed.

Lemma sql_max_spec (l : list (option Qc)) (m : Qc) :
  Sql.sql_max l = Some m ->
  In (Some m) l /\ forall x, In (Some x) l -> x <= m.
Proof.
  unfold Sql.sql_max. destruct (Sql.non_null l) as [|x xs] eqn:E;
    [discriminate|].
  intros H. inversion H; subst.
  destruct (fold_left_max xs x) as [Hin Hub]. rewrite <- E in Hin.
  split; [now apply non_null_In|].
  intros y Hy. apply Hub. rewrite <- E. now apply non_null_In.
Qed.

Lemma sql_max_defined (l : list (option Qc)) (p : Qc) :
  In (Some p) l -> exists m, Sql.sql_max l = Some m.
Proof.
  intros H. apply non_null_In in H. unfold Sql.sql_max.
  destruct (Sql.non_null l); [destruct H|]. eexists. reflexivity.
Qed.
End AggregateFacts.

(* ================================================================== *)
(** ** Keys and rows of the derived tables *)
(* ================================================================== *)

Lemma pair_fst_snd (X Y Z : Type) (l : list ((X * Y) * Z)) :
  map (fun g => (fst (fst g), snd (fst g))) l = map fst l.
Proof. apply map_ext. now intros [[? ?] ?]. Qed.

Lemma daily_keys (h : list NoaaHourlyAvg.row) :
  Permutation (map daily_key (select_noaa_daily_temp h))
              (Sql.distinct name_day_eq_dec (map hourly_key h)).
Proof.
  unfold select_noaa_daily_temp.
  rewrite (Permutation_map daily_key (order_by_perm _ _ _)).
  rewrite map_map. unfold daily_key. simpl.
  rewrite pair_fst_snd. fold hourly_key.
  now rewrite (group_by_keys name_day_eq_dec hourly_key h).
Qed.

Lemma daily_keys_NoDup (h : list NoaaHourlyAvg.row) :
  NoDup (map daily_key (select_noaa_daily_temp h)).
Proof.
  eapply Permutation_NoDup;
    [apply Permutation_sym, daily_keys | apply distinct_NoDup].
Qed.

Lemma threshold_keys (n : list NoaaDailyTemp.row) :
  map threshold_key (select_noaa_temp_thresholds n)
  = Sql.distinct name_mmdd_eq_dec (map station_mmdd n).
Proof.
  unfold select_noaa_temp_thresholds. rewrite map_map.
  unfold threshold_key. simpl. rewrite pair_fst_snd.
  apply group_by_keys.
Qed.

Lemma threshold_keys_NoDup (n : list NoaaDailyTemp.row) :
  NoDup (map threshold_key (select_noaa_temp_thresholds n)).
Proof. rewrite threshold_keys. apply distinct_NoDup. Qed.

Lemma load_keys (l : list EiaLoadHourly.row) :
  Permutation (map load_key (select_eia_daily_load l))
              (Sql.distinct name_day_eq_dec (map region_day (hourly_unique l))).
Proof.
  unfold select_eia_daily_load.
  rewrite (Permutation_map load_key (order_by_perm _ _ _)).
  rewrite map_map. unfold load_key. simpl.
  rewrite pair_fst_snd.
  now rewrite (group_by_keys name_day_eq_dec region_day (hourly_unique l)).
Qed.

Lemma load_keys_NoDup (l : list EiaLoadHourly.row) :
  NoDup (map load_key (select_eia_daily_load l)).
Proof.
  eapply Permutation_NoDup;
    [apply Permutation_sym, load_keys | apply distinct_NoDup].
Qed.

(** The two ON clauses compare keys. *)
Lemma on_threshold_key (n : NoaaDailyTemp.row) (t : NoaaTempThresholds.row) :
  on_threshold n t = true <-> threshold_key t = station_mmdd n.
Proof.
  unfold on_threshold, threshold_key, station_mmdd.
  rewrite andb_true_iff, !String.eqb_eq.
  split; [intros [-> ->]; reflexivity | intros H; inversion H; auto].
Qed.

Lemma on_load_key (nt : NoaaDailyTemp.row * option NoaaTempThresholds.row)
    (e : EiaDailyLoad.row) :
  on_load nt e = true <->
  load_key e = (region_joined (NoaaDailyTemp.station (fst nt)),
                NoaaDailyTemp.day_utc (fst nt)).
Proof.
  unfold on_load, load_key.
  rewrite andb_true_iff, String.eqb_eq.
  destruct (timestamp_eq_dec (EiaDailyLoad.day_utc e)
                             (NoaaDailyTemp.day_utc (fst nt))) as [E|E];
    split.
  - intros [-> _]. now rewrite E.
  - intros H. inversion H. auto.
  - intros [_ H]. discriminate.
  - intros H. inversion H. congruence.
Qed.

Lemma daily_In (d : NoaaDailyTemp.row) (h : list NoaaHourlyAvg.row) :
  In d (select_noaa_daily_temp h) <->
  In (daily_key d) (map hourly_key h)
  /\ NoaaDailyTemp.daily_max_temp_C d
     = Sql.sql_max (map NoaaHourlyAvg.temp_C (hourly_group (daily_key d) h))
  /\ NoaaDailyTemp.avg_temp_C d
     = Sql.sql_avg (map NoaaHourlyAvg.temp_C (hourly_group (daily_key d) h)).
Proof.
  unfold select_noaa_daily_temp. rewrite order_by_In, in_map_iff. split.
  - intros [g [<- Hg]]. apply group_by_In in Hg. destruct Hg as [Hk Hrows].
    destruct g as [[s day] rows]. simpl in *. subst rows. auto.
  - intros [Hk [Hmax Havg]].
    exists (daily_key d, hourly_group (daily_key d) h). split.
    + destruct d. simpl in *. now rewrite Hmax, Havg.
    + apply group_by_In. simpl. auto.
Qed.

Lemma threshold_In (th : NoaaTempThresholds.row) (n : list NoaaDailyTemp.row) :
  In th (select_noaa_temp_thresholds n) <->
  In (threshold_key th) (map station_mmdd n)
  /\ NoaaTempThresholds.t90_max th
     = Sql.quantile_cont
         (map NoaaDailyTemp.daily_max_temp_C (daily_group (threshold_key th) n))
         q90.
Proof.
  unfold select_noaa_temp_thresholds. rewrite in_map_iff. split.
  - intros [g [<- Hg]]. apply group_by_In in Hg. destruct Hg as [Hk Hrows].
    destruct g as [[s day] rows]. simpl in *. subst rows. auto.
  - intros [Hk Hq].
    exists (threshold_key th, daily_group (threshold_key th) n). split.
    + destruct th. simpl in *. now rewrite Hq.
    + apply group_by_In. simpl. auto.
Qed.

Lemma threshold_of_day (n : list NoaaDailyTemp.row) (d : NoaaDailyTemp.row) :
  In d n ->
  length (filter (on_threshold d) (select_noaa_temp_thresholds n)) = 1%nat.
Proof.
  intros Hd.
  apply unique_key_one with (f := threshold_key) (k := station_mmdd d).
  - apply threshold_keys_NoDup.
  - intros y _. apply on_threshold_key.
  - rewrite threshold_keys. apply distinct_In. now apply in_map.
Qed.


(** With unique threshold and load keys, the unified table is the daily
    table, row for row, with columns added. *)
Lemma heat_load_daily_left (n : list NoaaDailyTemp.row)
    (t : list NoaaTempThresholds.row) (e : list EiaDailyLoad.row) :
  NoDup (map threshold_key t) ->
  NoDup (map load_key e) ->
  map left_side (select_heat_load_daily n t e) = n.
Proof.
  intros Ht He. unfold select_heat_load_daily. rewrite map_map.
  transitivity (map fst (map fst
    (Sql.left_join on_load (Sql.left_join on_threshold n t) e))).
  - rewrite map_map. apply map_ext. intros [[[] ?] ?]. reflexivity.
  - rewrite left_join_left.
    + apply left_join_left. intros x _.
      apply unique_key_le with (f := threshold_key) (k := station_mmdd x); auto.
      intros y _. apply on_threshold_key.
    + intros x _.
      apply unique_key_le with (f := load_key)
        (k := (region_joined (NoaaDailyTemp.station (fst x)),
               NoaaDailyTemp.day_utc (fst x))); auto.
      intros y _. apply on_load_key.
Qed.

(** Where each unified row comes from. *)
Lemma heat_load_daily_In (r : HeatLoadDaily.row) (n : list NoaaDailyTemp.row)
    (t : list NoaaTempThresholds.row) (e : list EiaDailyLoad.row) :
  In r (select_heat_load_daily n t e) <->
  exists n0 ot oe,
    In n0 n /\ Sql.left_match on_threshold n0 t ot
    /\ Sql.left_match on_load (n0, ot) e oe
    /\ r = {| HeatLoadDaily.station := NoaaDailyTemp.station n0;
              HeatLoadDaily.region := region_column (NoaaDailyTemp.station n0);
              HeatLoadDaily.day_utc := NoaaDailyTemp.day_utc n0;
              HeatLoadDaily.daily_max_temp_C := NoaaDailyTemp.daily_max_temp_C n0;
              HeatLoadDaily.avg_temp_C := NoaaDailyTemp.avg_temp_C n0;
              HeatLoadDaily.t90_max := col ot NoaaTempThresholds.t90_max;
              HeatLoadDaily.is_hot_day :=
                Sql.sql_ge (NoaaDailyTemp.daily_max_temp_C n0)
                           (col ot NoaaTempThresholds.t90_max);
              HeatLoadDaily.daily_total_mwh :=
                col oe EiaDailyLoad.daily_total_mwh;
              HeatLoadDaily.daily_peak_mwh :=
                col oe EiaDailyLoad.daily_peak_mwh |}.
Proof.
  unfold select_heat_load_daily. rewrite in_map_iff. split.
  - intros [[[n0 ot] oe] [<- Hin]].
    apply left_join_In in Hin. destruct Hin as [Hnt Hoe].
    apply left_join_In in Hnt. destruct Hnt as [Hn Hot].
    exists n0, ot, oe. simpl. auto.
  - intros [n0 [ot [oe [Hn [Hot [Hoe ->]]]]]].
    exists ((n0, ot), oe). split; [reflexivity|].
    apply left_join_In. split; auto. apply left_join_In. auto.
Qed.

Lemma outage_row_In : In outage_row outage_unified.
Proof. vm_compute. left. reflexivity. Qed.

(* ================================================================== *)
(** ** Daily temperature *)
(* ================================================================== *)

(** C6, as the code has it.  Every station and day that has hourly rows
    has exactly one row in the daily table, whose maximum and mean are
    the aggregates of the temperatures of the group; the aggregates are
    those of the non-NULL temperatures alone; when every temperature of
    the group is NULL, the row is there with both aggregates NULL. *)
Theorem all_null_day_row (h : list NoaaHourlyAvg.row)
    (r0 : NoaaHourlyAvg.row) :
  In r0 h ->
  let temps := map NoaaHourlyAvg.temp_C (hourly_group (hourly_key r0) h) in
  exists d,
    daily_rows_of (hourly_key r0) (select_noaa_daily_temp h) = [d]
    /\ NoaaDailyTemp.daily_max_temp_C d = Sql.sql_max temps
    /\ NoaaDailyTemp.avg_temp_C d = Sql.sql_avg temps
    /\ Sql.sql_max temps = Sql.sql_max (filter (@is_not_null Qc) temps)
    /\ Sql.sql_avg temps = Sql.sql_avg (filter (@is_not_null Qc) temps)
    /\ ((forall r, In r h -> hourly_key r = hourly_key r0 ->
                   NoaaHourlyAvg.temp_C r = None) ->
        NoaaDailyTemp.daily_max_temp_C d = None
        /\ NoaaDailyTemp.avg_temp_C d = None).
Proof.
  intros Hr0 temps.
  assert (length (daily_rows_of (hourly_key r0) (select_noaa_daily_temp h))
          = 1%nat) as Hone.
  { apply unique_key_one with (f := daily_key) (k := hourly_key r0).
    - apply daily_keys_NoDup.
    - intros y _. destruct (name_day_eq_dec (daily_key y) (hourly_key r0));
        split; congruence.
    - apply (Permutation_in _ (Permutation_sym (daily_keys h))).
      apply distinct_In. now apply in_map. }
  destruct (daily_rows_of (hourly_key r0) (select_noaa_daily_temp h))
    as [|d [|? ?]] eqn:F; try discriminate.
  exists d. split; [reflexivity|].
  assert (In d (daily_rows_of (hourly_key r0) (select_noaa_daily_temp h)))
    as Hd by (rewrite F; now left).
  apply filter_In in Hd. destruct Hd as [Hd Hk].
  destruct (name_day_eq_dec (daily_key d) (hourly_key r0)) as [Hkey|];
    [|discriminate].
  apply daily_In in Hd. rewrite Hkey in Hd. destruct Hd as [_ [Hmax Havg]].
  fold temps in Hmax, Havg.
  assert (Sql.sql_max temps = Sql.sql_max (filter (@is_not_null Qc) temps))
    as Emax by (unfold Sql.sql_max; now rewrite non_null_filter).
  assert (Sql.sql_avg temps = Sql.sql_avg (filter (@is_not_null Qc) temps))
    as Eavg by (unfold Sql.sql_avg; now rewrite non_null_filter).
  repeat (split; [assumption|]).
  intros Hnull. rewrite Hmax, Havg. unfold Sql.sql_max, Sql.sql_avg.
  rewrite non_null_all_null; [now split|].
  intros x Hx. unfold temps in Hx. apply in_map_iff in Hx.
  destruct Hx as [r [<- Hr]]. apply group_rows_In in Hr.
  now apply Hnull.
Qed.

Lemma all_null_day_row_witness :
  In (reading "IAD" 2020 7 4 12 None) outage_only
  /\ exists d,
       daily_rows_of (hourly_key (reading "IAD" 2020 7 4 12 None))
                     (select_noaa_daily_temp outage_only) = [d].
Proof.
  assert (In (reading "IAD" 2020 7 4 12 None) outage_only) as Hin
    by (left; reflexivity).
  split; [exact Hin|].
  destruct (all_null_day_row outage_only _ Hin) as [d [Hd _]].
  now exists d.
Defined.

(** C6, as stated, fails: the day whose only temperature is NULL has a
    row in the daily table, with NULL aggregates. *)
Lemma all_null_day_not_absent :
  exists d, select_noaa_daily_temp outage_only = [d]
            /\ NoaaDailyTemp.station d = "IAD"%string
            /\ NoaaDailyTemp.day_utc d = at_hour 2020 7 4 0
            /\ NoaaDailyTemp.daily_max_temp_C d = None
            /\ NoaaDailyTemp.avg_temp_C d = None.
Proof. eexists. split; [lazy; reflexivity|]. repeat split. Qed.

(* ================================================================== *)
(** ** The climatological threshold *)
(* ================================================================== *)

Section F64Facts.










End F64Facts.







(* ================================================================== *)
(** ** Heatwave flags *)
(* ================================================================== *)

(** C10. The threshold table built from a daily table has exactly one
    row matching each of its rows, so the inner join of the flag
    builder keeps every daily record once: the flag table is the daily
    table reordered, with columns added, and has as many rows. *)
Theorem flags_keep_every_day (n : list NoaaDailyTemp.row) :
  (forall d, In d n ->
     exists th, filter (on_threshold d) (select_noaa_temp_thresholds n) = [th])
  /\ Permutation
       (map flag_left_side
            (select_noaa_heatwave_flags n (select_noaa_temp_thresholds n)))
       n
  /\ length (select_noaa_heatwave_flags n (select_noaa_temp_thresholds n))
     = length n.
Proof.
  assert (Permutation
            (map flag_left_side
               (select_noaa_heatwave_flags n (select_noaa_temp_thresholds n)))
            n) as Hperm.
  { unfold select_noaa_heatwave_flags.
    rewrite (Permutation_map flag_left_side (order_by_perm _ _ _)).
    rewrite map_map.
    rewrite (map_ext _ fst).
    - rewrite inner_join_left; [reflexivity|]. apply threshold_of_day.
    - intros [[] ?]. reflexivity. }
  split; [|split; [exact Hperm|]].
  - intros d Hd. apply threshold_of_day in Hd.
    destruct (filter (on_threshold d) (select_noaa_temp_thresholds n))
      as [|th [|? ?]]; try discriminate. now exists th.
  - rewrite <- (Permutation_length Hperm). now rewrite length_map.
Qed.

(* ================================================================== *)
(** ** Daily load *)
(* ================================================================== *)

(** The replay scenario of the design document: 500 MWh, not 1000. *)
Example replayed_total :
  map (fun o => (EiaDailyLoad.region o, EiaDailyLoad.daily_total_mwh o,
                 EiaDailyLoad.daily_peak_mwh o))
      (select_eia_daily_load replayed)
  = [("RX"%string, Some (tenths 5000), Some (tenths 5000))].
Proof. vm_compute. reflexivity. Qed.

(** *** On binary64 *)

Section F64LoadFacts.
Variable e : F64.engine.








Lemma in_table_order_addends (xs : list float) (s : F64.summation) :
  F64.addends (fold_left (fun s y => F64.Plus s (F64.Value y)) xs s)
  = F64.addends s ++ xs.
Proof.
  revert s. induction xs as [|y xs IH]; intros s; simpl.
  - now rewrite app_nil_r.
  - rewrite IH. simpl. now rewrite <- app_assoc.
Qed.
End F64LoadFacts.

Lemma in_table_order_once : F64.adds_each_once F64.in_table_order.
Proof.
  intros x xs. unfold F64.in_table_order.
  now rewrite in_table_order_addends.
Qed.

Lemma in_reverse_order_once : F64.adds_each_once F64.in_reverse_order.
Proof.
  intros x xs. unfold F64.in_reverse_order.
  pose proof (Permutation_rev (x :: xs)) as Hrev.
  destruct (rev (x :: xs)) as [|y ys].
  - apply Permutation_sym, Permutation_nil in Hrev. discriminate.
  - rewrite (in_table_order_once y ys). now apply Permutation_sym.
Qed.



(** The replay scenario of the design document on binary64: 500 MWh,
    not 1000.  With three hours of 0.1, 0.2 and 0.3 MWh, the first one
    replayed, the total is the sum of the three values: 0.6000000000000001
    when they are added in table order and 0.6 when they are added from
    the last to the first, two engines that add every value once; it is
    not the 0.7 that counting the replayed hour twice gives. *)
Example replayed_total_binary64 :
  F64.adds_each_once F64.in_table_order
  /\ F64.adds_each_once F64.in_reverse_order
  /\ F64.totals (F64.select_eia_daily_load F64.in_table_order F64.replayed)
     = [Some 500%float]
  /\ F64.totals (F64.select_eia_daily_load F64.in_table_order F64.three_hours)
     = [Some 0.6000000000000001%float]
  /\ F64.totals (F64.select_eia_daily_load F64.in_reverse_order F64.three_hours)
     = [Some 0.6%float]
  /\ (0.1 + 0.2 + 0.1 + 0.3 = 0.7)%float.
Proof.
  split; [exact in_table_order_once|]. split; [exact in_reverse_order_once|].
  repeat split; vm_compute; reflexivity.
Qed.

(* ================================================================== *)
(** ** The unified table *)
(* ================================================================== *)

(** C2, as the code has it.  In every row of the unified table
    [is_hot_day] is the three-valued [daily_max_temp_C >= t90_max]:
    with both values present it is true exactly when the maximum
    reaches the threshold and false exactly when it stays below; it is
    NULL when the daily maximum is NULL, when [t90_max] is NULL, and in
    particular when no threshold row matches the station and calendar
    day. *)
Theorem hot_day_flag (n : list NoaaDailyTemp.row)
    (t : list NoaaTempThresholds.row) (e : list EiaDailyLoad.row)
    (r : HeatLoadDaily.row) :
  In r (select_heat_load_daily n t e) ->
  (forall x y : Qc,
      HeatLoadDaily.daily_max_temp_C r = Some x ->
      HeatLoadDaily.t90_max r = Some y ->
      (HeatLoadDaily.is_hot_day r = Some true <-> y <= x)
      /\ (HeatLoadDaily.is_hot_day r = Some false <-> x < y)
      /\ HeatLoadDaily.is_hot_day r <> None)
  /\ (HeatLoadDaily.daily_max_temp_C r = None ->
      HeatLoadDaily.is_hot_day r = None)
  /\ (HeatLoadDaily.t90_max r = None -> HeatLoadDaily.is_hot_day r = None)
  /\ ((forall th, In th t ->
         threshold_key th <> (HeatLoadDaily.station r,
                              strftime_mmdd (HeatLoadDaily.day_utc r))) ->
      HeatLoadDaily.t90_max r = None /\ HeatLoadDaily.is_hot_day r = None).
Proof.
  intros Hr. apply heat_load_daily_In in Hr.
  destruct Hr as [n0 [ot [oe [_ [Hot [_ ->]]]]]]. simpl.
  split; [|split; [|split]].
  - intros x y Hx Hy. rewrite Hx, Hy. simpl.
    destruct (Qclt_le_dec x y) as [Hlt|Hle].
    + split; [|split; [|discriminate]].
      * split; [discriminate|].
        intros Hle. exfalso. exact (Qclt_not_le _ _ Hlt Hle).
      * split; auto.
    + split; [|split; [|discriminate]].
      * split; auto.
      * split; [discriminate|].
        intros Hlt. exfalso. exact (Qclt_not_le _ _ Hlt Hle).
  - intros ->. reflexivity.
  - intros ->. now destruct (NoaaDailyTemp.daily_max_temp_C n0).
  - intros Hnone.
    destruct Hot as [[-> _]|[y [_ [Hy Hon]]]].
    + now destruct (NoaaDailyTemp.daily_max_temp_C n0).
    + apply on_threshold_key in Hon. exfalso. exact (Hnone y Hy Hon).
Qed.

Lemma hot_day_flag_witness :
  In outage_row outage_unified
  /\ HeatLoadDaily.daily_max_temp_C outage_row = None
  /\ HeatLoadDaily.is_hot_day outage_row = None.
Proof.
  assert (In outage_row outage_unified) as Hin by (vm_compute; left; reflexivity).
  assert (HeatLoadDaily.daily_max_temp_C outage_row = None) as Hmax
    by (vm_compute; reflexivity).
  split; [exact Hin|split; [exact Hmax|]].
  exact (proj1 (proj2 (hot_day_flag outage_daily outage_thresholds [] outage_row
                         Hin)) Hmax).
Defined.

(** C2, as stated, fails: on the outage day the threshold of 4 July is
    30.0 (from the reading of 2021), so [t90_max] is not NULL, but the
    daily maximum is NULL and [is_hot_day] is NULL, not false. *)
Lemma hot_day_flag_null_with_threshold :
  exists r, In r outage_unified
            /\ HeatLoadDaily.station r = "IAD"%string
            /\ HeatLoadDaily.day_utc r = at_hour 2020 7 4 0
            /\ HeatLoadDaily.t90_max r = Some (tenths 300)
            /\ HeatLoadDaily.is_hot_day r = None.
Proof.
  exists outage_row. split; [exact outage_row_In|].
  repeat split; vm_compute; reflexivity.
Qed.

(** C3, as the code has it.  With its three input tables present the
    join stage raises nothing: it returns the row count and stores the
    table; every daily record whose station the region CASE does not
    list is in the table, with a NULL region. *)
Theorem unmapped_station_null_region (d : db)
    (n : list NoaaDailyTemp.row) (t : list NoaaTempThresholds.row)
    (e : list EiaDailyLoad.row) :
  noaa_daily_temp d = Some n ->
  noaa_temp_thresholds d = Some t ->
  eia_daily_load d = Some e ->
  fst (heat_load_daily d) = Done (length (select_heat_load_daily n t e))
  /\ heat_load_daily_table (snd (heat_load_daily d))
     = Some (select_heat_load_daily n t e)
  /\ forall n0, In n0 n ->
       region_column (NoaaDailyTemp.station n0) = None ->
       exists r, In r (select_heat_load_daily n t e)
                 /\ left_side r = n0
                 /\ HeatLoadDaily.region r = None.
Proof.
  intros Hn Ht He.
  unfold heat_load_daily, bind, from, set_heat_load_daily, ret. simpl.
  rewrite Hn, Ht, He. simpl. split; [reflexivity|split; [reflexivity|]].
  intros n0 Hn0 Hreg.
  destruct (left_match_exists on_threshold n0 t) as [ot Hot].
  destruct (left_match_exists on_load (n0, ot) e) as [oe Hoe].
  eexists. split.
  - apply heat_load_daily_In. exists n0, ot, oe. repeat split; eauto.
  - simpl. split; [now destruct n0|exact Hreg].
Qed.

Lemma unmapped_station_null_region_witness :
  fst (heat_load_daily unlisted_db) = Done 1%nat
  /\ exists r, In r (select_heat_load_daily
                       unlisted_daily
                       (select_noaa_temp_thresholds unlisted_daily)
                       (select_eia_daily_load isne_load))
               /\ left_side r = hd unlisted_row unlisted_daily
               /\ HeatLoadDaily.region r = None.
Proof.
  destruct (unmapped_station_null_region unlisted_db
              (n := unlisted_daily) eq_refl eq_refl eq_refl)
    as [Hdone [_ Hrow]].
  split.
  - rewrite Hdone. vm_compute. reflexivity.
  - apply Hrow; vm_compute; [left|]; reflexivity.
Defined.

(** C3, as stated, fails: for the station "XYZ", which the CASE
    expressions do not list, the stage completes and the unified table
    holds the row of "XYZ" with a NULL region. *)
Lemma unmapped_station_not_raised :
  fst (heat_load_daily unlisted_db) = Done 1%nat
  /\ exists r, heat_load_daily_table (snd (heat_load_daily unlisted_db))
               = Some [r]
               /\ HeatLoadDaily.station r = "XYZ"%string
               /\ HeatLoadDaily.region r = None.
Proof.
  split; [vm_compute; reflexivity|].
  eexists. split; [lazy; reflexivity|]. split; reflexivity.
Qed.

(** C4. The unified table of a run has exactly the rows of the daily
    temperature table (same number, and column for column the same
    rows in the same order, so none is dropped or repeated); a row
    without a load record of its joined region and day has NULL
    [daily_total_mwh] and [daily_peak_mwh]. *)
Theorem join_completeness (h : list NoaaHourlyAvg.row)
    (l : list EiaLoadHourly.row) :
  let n := select_noaa_daily_temp h in
  let t := select_noaa_temp_thresholds n in
  let e := select_eia_daily_load l in
  let u := select_heat_load_daily n t e in
  length u = length n
  /\ map left_side u = n
  /\ forall r, In r u ->
       (forall e0, In e0 e ->
          load_key e0 <> (region_joined (HeatLoadDaily.station r),
                          HeatLoadDaily.day_utc r)) ->
       HeatLoadDaily.daily_total_mwh r = None
       /\ HeatLoadDaily.daily_peak_mwh r = None.
Proof.
  intros n t e u.
  assert (map left_side u = n) as Hleft.
  { apply heat_load_daily_left;
      [apply threshold_keys_NoDup | apply load_keys_NoDup]. }
  split; [|split; [exact Hleft|]].
  - transitivity (length (map left_side u));
      [symmetry; apply length_map | now rewrite Hleft].
  - intros r Hr Hnone. apply heat_load_daily_In in Hr.
    destruct Hr as [n0 [ot [oe [_ [_ [Hoe ->]]]]]]. simpl in *.
    destruct Hoe as [[-> _]|[y [_ [Hy Hon]]]]; [now split|].
    apply on_load_key in Hon. exfalso. exact (Hnone y Hy Hon).
Qed.

(** C9. A daily record whose station is neither 'IAD' nor 'BOS' is in
    the unified table, and each unified row built from it has a NULL
    region while its load columns are those of the 'ISNE' load record
    of the same day (NULL only when 'ISNE' has no record that day). *)
Theorem unmapped_station_isne_load (n : list NoaaDailyTemp.row)
    (t : list NoaaTempThresholds.row) (e : list EiaDailyLoad.row)
    (n0 : NoaaDailyTemp.row) :
  In n0 n ->
  NoaaDailyTemp.station n0 <> "IAD"%string ->
  NoaaDailyTemp.station n0 <> "BOS"%string ->
  (exists r, In r (select_heat_load_daily n t e) /\ left_side r = n0)
  /\ forall r, In r (select_heat_load_daily n t e) -> left_side r = n0 ->
       HeatLoadDaily.region r = None
       /\ ((exists e0, In e0 e
                       /\ EiaDailyLoad.region e0 = "ISNE"%string
                       /\ EiaDailyLoad.day_utc e0 = NoaaDailyTemp.day_utc n0
                       /\ HeatLoadDaily.daily_total_mwh r
                          = EiaDailyLoad.daily_total_mwh e0
                       /\ HeatLoadDaily.daily_peak_mwh r
                          = EiaDailyLoad.daily_peak_mwh e0)
           \/ ((forall e0, In e0 e ->
                  ~ (EiaDailyLoad.region e0 = "ISNE"%string
                     /\ EiaDailyLoad.day_utc e0 = NoaaDailyTemp.day_utc n0))
               /\ HeatLoadDaily.daily_total_mwh r = None
               /\ HeatLoadDaily.daily_peak_mwh r = None)).
Proof.
  intros Hn0 Hiad Hbos.
  apply String.eqb_neq in Hiad. apply String.eqb_neq in Hbos.
  split.
  - destruct (left_match_exists on_threshold n0 t) as [ot Hot].
    destruct (left_match_exists on_load (n0, ot) e) as [oe Hoe].
    eexists. split.
    + apply heat_load_daily_In. exists n0, ot, oe. repeat split; eauto.
    + now destruct n0.
  - intros r Hr Hleft. apply heat_load_daily_In in Hr.
    destruct Hr as [n1 [ot [oe [_ [_ [Hoe ->]]]]]].
    assert (n1 = n0) as -> by (rewrite <- Hleft; now destruct n1).
    simpl. split.
    + unfold region_column. now rewrite Hiad, Hbos.
    + assert (region_joined (NoaaDailyTemp.station n0) = "ISNE"%string) as Hj
        by (unfold region_joined; now rewrite Hiad).
      destruct Hoe as [[-> Hnone]|[y [-> [Hy Hon]]]].
      * right. split; [|now split]. intros e0 He0 [Hreg Hday].
        specialize (Hnone e0 He0).
        assert (on_load (n0, ot) e0 = true) as Hon.
        { apply on_load_key. unfold load_key. simpl. now rewrite Hj, Hreg, Hday. }
        congruence.
      * left. exists y. apply on_load_key in Hon. unfold load_key in Hon.
        simpl in Hon. rewrite Hj in Hon. inversion Hon. simpl. auto.
Qed.

Lemma unmapped_station_isne_load_witness :
  (In (hd unlisted_row unlisted_daily) unlisted_daily
   /\ NoaaDailyTemp.station (hd unlisted_row unlisted_daily) <> "IAD"%string
   /\ NoaaDailyTemp.station (hd unlisted_row unlisted_daily) <> "BOS"%string)
  /\ exists r, In r (select_heat_load_daily
                       unlisted_daily
                       (select_noaa_temp_thresholds unlisted_daily)
                       (select_eia_daily_load isne_load))
               /\ left_side r = hd unlisted_row unlisted_daily.
Proof.
  assert (In (hd unlisted_row unlisted_daily) unlisted_daily) as Hin
    by (vm_compute; left; reflexivity).
  assert (NoaaDailyTemp.station (hd unlisted_row unlisted_daily)
          <> "IAD"%string) as Hiad by (vm_compute; discriminate).
  assert (NoaaDailyTemp.station (hd unlisted_row unlisted_daily)
          <> "BOS"%string) as Hbos by (vm_compute; discriminate).
  split; [auto|].
  exact (proj1 (@unmapped_station_isne_load
                  unlisted_daily
                  (select_noaa_temp_thresholds unlisted_daily)
                  (select_eia_daily_load isne_load)
                  (hd unlisted_row unlisted_daily) Hin Hiad Hbos)).
Defined.

(* ================================================================== *)
(** ** Further properties of the derived tables *)
(* ================================================================== *)

Section MoreBagFacts.
Variable A : Type.
Variable dec : forall x y : A, {x = y} + {x <> y}.

Lemma filter_length_le (p : A -> bool) (l : list A) :
  (length (filter p l) <= length l)%nat.
Proof.
  induction l as [|a l IH]; simpl; [lia|]. destruct (p a); simpl; lia.
Qed.

Lemma distinct_length_le (l : list A) :
  (length (Sql.distinct dec l) <= length l)%nat.
Proof.
  induction l as [|a l IH]; simpl; [lia|].
  pose proof (filter_length_le (Sql.differs dec a) (Sql.distinct dec l)). lia.
Qed.
End MoreBagFacts.

Lemma unique_key_eq (R K : Type) (f : R -> K) (r : list R) (a b : R) :
  NoDup (map f r) -> In a r -> In b r -> f a = f b -> a = b.
Proof.
  induction r as [|c r IH]; simpl; intros ND Ha Hb E; [destruct Ha|].
  inversion ND as [|? ? Hnot ND']; subst.
  destruct Ha as [->|Ha], Hb as [->|Hb]; auto.
  - exfalso. apply Hnot. rewrite E. now apply in_map.
  - exfalso. apply Hnot. rewrite <- E. now apply in_map.
Qed.

Lemma flags_perm (n : list NoaaDailyTemp.row) :
  Permutation
    (map flag_left_side
         (select_noaa_heatwave_flags n (select_noaa_temp_thresholds n)))
    n.
Proof.
  unfold select_noaa_heatwave_flags.
  rewrite (Permutation_map flag_left_side (order_by_perm _ _ _)).
  rewrite map_map. rewrite (map_ext _ fst).
  - rewrite inner_join_left; [reflexivity|]. apply threshold_of_day.
  - intros [[] ?]. reflexivity.
Qed.

(** Where each flag row comes from. *)
Lemma flags_In (f : NoaaHeatwaveFlags.row) (n : list NoaaDailyTemp.row)
    (t : list NoaaTempThresholds.row) :
  In f (select_noaa_heatwave_flags n t) <->
  exists d t0,
    In d n /\ In t0 t /\ on_threshold d t0 = true
    /\ flag_left_side f = d
    /\ NoaaHeatwaveFlags.t90_max f = NoaaTempThresholds.t90_max t0
    /\ NoaaHeatwaveFlags.is_hot_day f
       = match Sql.sql_ge (NoaaDailyTemp.daily_max_temp_C d)
                          (NoaaTempThresholds.t90_max t0) with
         | Some true => 1%Z
         | _ => 0%Z
         end.
Proof.
  unfold select_noaa_heatwave_flags.
  rewrite order_by_In, in_map_iff. split.
  - intros [[d t0] [<- Hin]]. unfold Sql.inner_join in Hin.
    apply in_flat_map in Hin. destruct Hin as [d' [Hd Hin]].
    apply in_map_iff in Hin. destruct Hin as [t' [Heq Ht]].
    inversion Heq; subst. apply filter_In in Ht.
    exists d, t0. simpl. destruct d; simpl. tauto.
  - intros [d [t0 [Hd [Ht [Hon [Hl [Hq Hh]]]]]]].
    exists (d, t0). split.
    + subst d. destruct f. simpl in *. now rewrite Hq, Hh.
    + unfold Sql.inner_join. apply in_flat_map. exists d. split; auto.
      apply in_map. apply filter_In. auto.
Qed.

(** X1. After a run every derived table has a unique key: one row per
    (station, day) in the daily, flag and unified tables, per (station,
    MM-DD) in the threshold table, per (region, day) in the load table. *)
Theorem derived_keys_unique (h : list NoaaHourlyAvg.row)
    (l : list EiaLoadHourly.row) :
  let n := select_noaa_daily_temp h in
  let t := select_noaa_temp_thresholds n in
  let e := select_eia_daily_load l in
  NoDup (map daily_key n)
  /\ NoDup (map threshold_key t)
  /\ NoDup (map flag_key (select_noaa_heatwave_flags n t))
  /\ NoDup (map load_key e)
  /\ NoDup (map unified_key (select_heat_load_daily n t e)).
Proof.
  intros n t e.
  pose proof (daily_keys_NoDup h) as Hn. fold n in Hn.
  split; [exact Hn|]. split; [apply threshold_keys_NoDup|].
  split; [|split; [apply load_keys_NoDup|]].
  - apply (Permutation_NoDup
             (l := map daily_key
                     (map flag_left_side (select_noaa_heatwave_flags n t)))).
    + rewrite map_map. apply Permutation_refl.
    + eapply Permutation_NoDup; [|exact Hn].
      apply Permutation_sym, Permutation_map, flags_perm.
  - assert (map unified_key (select_heat_load_daily n t e)
            = map daily_key (map left_side (select_heat_load_daily n t e)))
      as -> by (now rewrite map_map).
    rewrite heat_load_daily_left;
      [exact Hn | apply threshold_keys_NoDup | apply load_keys_NoDup].
Qed.

(** X2. In the standalone flag table [is_hot_day] is always 0 or 1,
    never NULL: it is 1 exactly when the daily maximum and the
    threshold are both present and the maximum reaches the threshold;
    a row whose daily maximum or threshold is NULL is flagged 0. *)
Theorem flag_values (n : list NoaaDailyTemp.row)
    (t : list NoaaTempThresholds.row) (f : NoaaHeatwaveFlags.row) :
  In f (select_noaa_heatwave_flags n t) ->
  (NoaaHeatwaveFlags.is_hot_day f = 0%Z \/ NoaaHeatwaveFlags.is_hot_day f = 1%Z)
  /\ (NoaaHeatwaveFlags.is_hot_day f = 1%Z <->
      exists x y, NoaaHeatwaveFlags.daily_max_temp_C f = Some x
                  /\ NoaaHeatwaveFlags.t90_max f = Some y
                  /\ y <= x)
  /\ (NoaaHeatwaveFlags.daily_max_temp_C f = None
      \/ NoaaHeatwaveFlags.t90_max f = None ->
      NoaaHeatwaveFlags.is_hot_day f = 0%Z).
Proof.
  intros Hf. apply flags_In in Hf.
  destruct Hf as [d [t0 [_ [_ [_ [Hl [Hq Hh]]]]]]].
  assert (NoaaHeatwaveFlags.daily_max_temp_C f
          = NoaaDailyTemp.daily_max_temp_C d) as Hm by (now subst d).
  rewrite Hh, Hq, Hm.
  destruct (NoaaDailyTemp.daily_max_temp_C d) as [x|],
           (NoaaTempThresholds.t90_max t0) as [y|]; simpl.
  - destruct (Qclt_le_dec x y) as [Hlt|Hle].
    + split; [now left|]. split.
      * split; [discriminate|]. intros [x' [y' [Hx [Hy Hle]]]].
        inversion Hx; inversion Hy; subst.
        exfalso. exact (Qclt_not_le _ _ Hlt Hle).
      * intros [H|H]; discriminate.
    + split; [now right|]. split.
      * split; [|reflexivity]. intros _. now exists x, y.
      * intros [H|H]; discriminate.
  - split; [now left|]. split; [|reflexivity].
    split; [discriminate|]. intros [? [? [_ [H _]]]]. discriminate.
  - split; [now left|]. split; [|reflexivity].
    split; [discriminate|]. intros [? [? [H _]]]. discriminate.
  - split; [now left|]. split; [|reflexivity].
    split; [discriminate|]. intros [? [? [H _]]]. discriminate.
Qed.

Lemma flag_values_witness :
  In outage_flag outage_flags
  /\ NoaaHeatwaveFlags.daily_max_temp_C outage_flag = None
  /\ NoaaHeatwaveFlags.is_hot_day outage_flag = 0%Z.
Proof.
  assert (In outage_flag outage_flags) as Hin
    by (vm_compute; left; reflexivity).
  assert (NoaaHeatwaveFlags.daily_max_temp_C outage_flag = None) as Hmax
    by (vm_compute; reflexivity).
  split; [exact Hin|split; [exact Hmax|]].
  exact (proj2 (proj2 (flag_values outage_daily outage_thresholds outage_flag
                         Hin)) (or_introl Hmax)).
Defined.

(** With unique daily and threshold keys, the flag row and the unified
    row of one station and day compare the same two values. *)
Lemma unified_flag_same_test (n : list NoaaDailyTemp.row)
    (t : list NoaaTempThresholds.row) (e : list EiaDailyLoad.row)
    (u : HeatLoadDaily.row) (f : NoaaHeatwaveFlags.row) :
  NoDup (map daily_key n) ->
  NoDup (map threshold_key t) ->
  In u (select_heat_load_daily n t e) ->
  In f (select_noaa_heatwave_flags n t) ->
  flag_key f = unified_key u ->
  NoaaHeatwaveFlags.is_hot_day f
  = match HeatLoadDaily.is_hot_day u with
    | Some true => 1%Z
    | _ => 0%Z
    end.
Proof.
  intros NDn NDt Hu Hf Hk.
  apply heat_load_daily_In in Hu.
  destruct Hu as [d [ot [oe [Hd [Hot [_ ->]]]]]].
  apply flags_In in Hf.
  destruct Hf as [d' [t0 [Hd' [Ht0 [Hon [Hl [_ Hh]]]]]]].
  assert (d' = d) as ->.
  { apply (unique_key_eq daily_key n); auto.
    rewrite <- Hl. exact Hk. }
  rewrite Hh. simpl.
  destruct Hot as [[-> Hnone]|[y [-> [Hy Hony]]]].
  - rewrite (Hnone t0 Ht0) in Hon. discriminate.
  - assert (y = t0) as ->.
    { apply (unique_key_eq threshold_key t); auto.
      apply on_threshold_key in Hon. apply on_threshold_key in Hony.
      congruence. }
    reflexivity.
Qed.

(** X3. When the catalog holds the unified table of a run, [load_data]
    of analysis.py completes without changing the catalog and returns
    the rows of the unified table, each exactly once; its column
    [is_hot_bool] is true exactly for the days that the standalone flag
    table flags 1, so a NULL [is_hot_day] is read as a normal day. *)
Theorem load_data_agrees_with_flags (d : db) (h : list NoaaHourlyAvg.row)
    (e : list EiaDailyLoad.row) :
  let n := select_noaa_daily_temp h in
  let t := select_noaa_temp_thresholds n in
  heat_load_daily_table d = Some (select_heat_load_daily n t e) ->
  exists df,
    load_data d = (Done df, d)
    /\ Permutation (map Analysis.columns df) (select_heat_load_daily n t e)
    /\ forall r f,
         In r df -> In f (select_noaa_heatwave_flags n t) ->
         flag_key f = unified_key (Analysis.columns r) ->
         (Analysis.is_hot_bool r = true
          <-> NoaaHeatwaveFlags.is_hot_day f = 1%Z).
Proof.
  intros n t Hd. unfold load_data, bind, from, ret. rewrite Hd.
  eexists. split; [reflexivity|].
  assert (forall (u : list HeatLoadDaily.row),
            map Analysis.columns
              (map (fun r =>
                      {| Analysis.columns := r;
                         Analysis.is_hot_bool :=
                           astype_bool
                             (fillna_0_astype_int (HeatLoadDaily.is_hot_day r)) |})
                   u) = u) as Hcols.
  { intros u. rewrite map_map. simpl. apply map_id. }
  split.
  - rewrite Hcols. apply order_by_perm.
  - intros r f Hr Hf Hk.
    apply in_map_iff in Hr. destruct Hr as [u [<- Hu]].
    apply order_by_In in Hu. simpl in *.
    rewrite (@unified_flag_same_test n t _ u f (daily_keys_NoDup h)
               (threshold_keys_NoDup n) Hu Hf Hk).
    destruct (HeatLoadDaily.is_hot_day u) as [[|]|]; cbv;
      split; intros H; try reflexivity; discriminate H.
Qed.

Lemma load_data_agrees_with_flags_witness :
  heat_load_daily_table outage_db = Some outage_unified
  /\ exists df, load_data outage_db = (Done df, outage_db).
Proof.
  assert (heat_load_daily_table outage_db
          = Some (select_heat_load_daily
                    (select_noaa_daily_temp outage_then_reading)
                    (select_noaa_temp_thresholds
                       (select_noaa_daily_temp outage_then_reading)) []))
    as H by reflexivity.
  split; [exact H|].
  destruct (@load_data_agrees_with_flags outage_db outage_then_reading [] H)
    as [df [Hdf _]].
  now exists df.
Defined.

(** X4. When the hourly load table is missing, a run rebuilds the three
    temperature tables, drops the daily load table and then raises on
    [eia_load_hourly]; the unified table is left as it was before the
    run, so it may no longer match the rebuilt temperature tables. *)
Theorem run_without_load_table (d : db) (h : list NoaaHourlyAvg.row) :
  noaa_hourly_avg d = Some h ->
  eia_load_hourly d = None ->
  let n := select_noaa_daily_temp h in
  let t := select_noaa_temp_thresholds n in
  fst (main d) = Raised (CatalogException "eia_load_hourly")
  /\ noaa_daily_temp (snd (main d)) = Some n
  /\ noaa_temp_thresholds (snd (main d)) = Some t
  /\ noaa_heatwave_flags (snd (main d))
     = Some (select_noaa_heatwave_flags n t)
  /\ eia_daily_load (snd (main d)) = None
  /\ heat_load_daily_table (snd (main d)) = heat_load_daily_table d.
Proof.
  intros Hh Hl. destruct d; simpl in *; subst. repeat split.
Qed.

Lemma run_without_load_table_witness :
  let d := {| noaa_hourly_avg := Some outage_then_reading;
              eia_load_hourly := None;
              noaa_daily_temp := None; noaa_temp_thresholds := None;
              noaa_heatwave_flags := None; eia_daily_load := None;
              heat_load_daily_table := Some [null_unified_row] |} in
  fst (main d) = Raised (CatalogException "eia_load_hourly")
  /\ heat_load_daily_table (snd (main d)) = Some [null_unified_row].
Proof.
  intros d.
  destruct (@run_without_load_table d outage_then_reading eq_refl eq_refl)
    as [H1 [_ [_ [_ [_ H6]]]]].
  split; [exact H1|exact H6].
Defined.

(** X5. When the hourly temperature table is missing, a run raises on
    [noaa_hourly_avg] in its first stage: the daily temperature table
    has been dropped and every other table is as before the run. *)
Theorem run_without_temperature_table (d : db) :
  noaa_hourly_avg d = None ->
  fst (main d) = Raised (CatalogException "noaa_hourly_avg")
  /\ noaa_daily_temp (snd (main d)) = None
  /\ noaa_hourly_avg (snd (main d)) = None
  /\ eia_load_hourly (snd (main d)) = eia_load_hourly d
  /\ noaa_temp_thresholds (snd (main d)) = noaa_temp_thresholds d
  /\ noaa_heatwave_flags (snd (main d)) = noaa_heatwave_flags d
  /\ eia_daily_load (snd (main d)) = eia_daily_load d
  /\ heat_load_daily_table (snd (main d)) = heat_load_daily_table d.
Proof.
  intros Hh. destruct d; simpl in *; subst. repeat split.
Qed.

Lemma run_without_temperature_table_witness :
  let d := {| noaa_hourly_avg := None; eia_load_hourly := Some isne_load;
              noaa_daily_temp := Some outage_daily;
              noaa_temp_thresholds := Some outage_thresholds;
              noaa_heatwave_flags := None; eia_daily_load := None;
              heat_load_daily_table := None |} in
  fst (main d) = Raised (CatalogException "noaa_hourly_avg")
  /\ noaa_daily_temp (snd (main d)) = None
  /\ noaa_temp_thresholds (snd (main d)) = Some outage_thresholds.
Proof.
  intros d.
  destruct (@run_without_temperature_table d eq_refl)
    as [H1 [H2 [_ [_ [H5 _]]]]].
  split; [exact H1|split; [exact H2|exact H5]].
Defined.

Lemma group_by_length (A K : Type)
    (dec : forall x y : K, {x = y} + {x <> y}) (key : A -> K) (l : list A) :
  length (Sql.group_by dec key l) = length (Sql.distinct dec (map key l)).
Proof. unfold Sql.group_by. apply length_map. Qed.

(** X6. The row counts that the stages print can only shrink along the
    chain: the threshold table has at most as many rows as the daily
    temperature table, which has at most as many as the hourly table,
    and the daily load table at most as many as the hourly load table;
    the daily temperature table is empty only for an empty hourly
    table. *)
Theorem row_counts_shrink (h : list NoaaHourlyAvg.row)
    (l : list EiaLoadHourly.row) :
  let n := select_noaa_daily_temp h in
  (length (select_noaa_temp_thresholds n) <= length n)%nat
  /\ (length n <= length h)%nat
  /\ (length (select_eia_daily_load l) <= length l)%nat
  /\ (n = [] <-> h = []).
Proof.
  intros n.
  assert (length n = length (Sql.distinct name_day_eq_dec (map hourly_key h)))
    as Hn.
  { unfold n, select_noaa_daily_temp.
    rewrite order_by_length, length_map. apply group_by_length. }
  split; [|split; [|split]].
  - unfold select_noaa_temp_thresholds.
    rewrite length_map, group_by_length.
    rewrite <- (length_map station_mmdd n). apply distinct_length_le.
  - rewrite Hn, <- (length_map hourly_key h). apply distinct_length_le.
  - unfold select_eia_daily_load.
    rewrite order_by_length, length_map, group_by_length.
    etransitivity; [apply distinct_length_le|]. rewrite length_map.
    apply distinct_length_le.
  - split.
    + intros E. rewrite E in Hn. destruct h; [reflexivity|discriminate].
    + intros ->. reflexivity.
Qed.

(** X7. A unified row with a non-NULL region is a row of 'IAD' shown as
    'PJM' or of 'BOS' shown as 'ISNE', and its load columns are those of
    a load record of that very region and day, or NULL when the region
    has no record that day: only rows with a NULL region carry the load
    of a region that they do not show. *)
Theorem shown_region_is_joined_region (n : list NoaaDailyTemp.row)
    (t : list NoaaTempThresholds.row) (e : list EiaDailyLoad.row)
    (u : HeatLoadDaily.row) (g : string) :
  In u (select_heat_load_daily n t e) ->
  HeatLoadDaily.region u = Some g ->
  ((HeatLoadDaily.station u = "IAD"%string /\ g = "PJM"%string)
   \/ (HeatLoadDaily.station u = "BOS"%string /\ g = "ISNE"%string))
  /\ ((exists e0, In e0 e
                  /\ load_key e0 = (g, HeatLoadDaily.day_utc u)
                  /\ HeatLoadDaily.daily_total_mwh u
                     = EiaDailyLoad.daily_total_mwh e0
                  /\ HeatLoadDaily.daily_peak_mwh u
                     = EiaDailyLoad.daily_peak_mwh e0)
      \/ ((forall e0, In e0 e -> load_key e0 <> (g, HeatLoadDaily.day_utc u))
          /\ HeatLoadDaily.daily_total_mwh u = None
          /\ HeatLoadDaily.daily_peak_mwh u = None)).
Proof.
  intros Hu Hg. apply heat_load_daily_In in Hu.
  destruct Hu as [n0 [ot [oe [_ [_ [Hoe ->]]]]]]. simpl in *.
  assert (region_joined (NoaaDailyTemp.station n0) = g
          /\ ((NoaaDailyTemp.station n0 = "IAD"%string /\ g = "PJM"%string)
              \/ (NoaaDailyTemp.station n0 = "BOS"%string
                  /\ g = "ISNE"%string))) as [Hj Hst].
  { unfold region_column, region_joined in *.
    destruct (String.eqb_spec (NoaaDailyTemp.station n0) "IAD") as [E|E].
    - inversion Hg. auto.
    - destruct (String.eqb_spec (NoaaDailyTemp.station n0) "BOS") as [E'|E'];
        [|discriminate].
      inversion Hg. auto. }
  split; [exact Hst|].
  destruct Hoe as [[-> Hnone]|[y [-> [Hy Hon]]]].
  - right. split; [|now split]. intros e0 He0 Hk.
    specialize (Hnone e0 He0).
    assert (on_load (n0, ot) e0 = true) as Hon
      by (apply on_load_key; simpl; now rewrite Hj).
    congruence.
  - left. exists y. apply on_load_key in Hon. simpl in Hon.
    rewrite Hj in Hon. auto.
Qed.

Lemma shown_region_is_joined_region_witness :
  (In (hd null_unified_row mapped_unified) mapped_unified
   /\ HeatLoadDaily.region (hd null_unified_row mapped_unified)
      = Some "ISNE"%string)
  /\ ((HeatLoadDaily.station (hd null_unified_row mapped_unified)
       = "IAD"%string /\ "ISNE"%string = "PJM"%string)
      \/ (HeatLoadDaily.station (hd null_unified_row mapped_unified)
          = "BOS"%string /\ "ISNE"%string = "ISNE"%string)).
Proof.
  assert (In (hd null_unified_row mapped_unified) mapped_unified) as Hin
    by (vm_compute; left; reflexivity).
  assert (HeatLoadDaily.region (hd null_unified_row mapped_unified)
          = Some "ISNE"%string) as Hg by (vm_compute; reflexivity).
  split; [split; assumption|].
  exact (proj1 (@shown_region_is_joined_region _ _ _ _ _ Hin Hg)).
Defined.

Section CalendarDay.
Lemma digit_inj (a b : nat) : digit a = digit b -> a mod 10 = b mod 10.
Proof.
  unfold digit. intros H. apply (f_equal nat_of_ascii) in H.
  pose proof (Nat.mod_upper_bound a 10). pose proof (Nat.mod_upper_bound b 10).
  rewrite !nat_ascii_embedding in H by lia. lia.
Qed.

Lemma two_digits_inj (a b : nat) :
  (a < 100)%nat -> (b < 100)%nat -> two_digits a = two_digits b -> a = b.
Proof.
  unfold two_digits. intros Ha Hb H. inversion H as [[H1 H2]].
  apply digit_inj in H1. apply digit_inj in H2.
  pose proof (Nat.div_mod_eq a 10). pose proof (Nat.div_mod_eq b 10).
  assert (a / 10 < 10)%nat by (apply Nat.Div0.div_lt_upper_bound; lia).
  assert (b / 10 < 10)%nat by (apply Nat.Div0.div_lt_upper_bound; lia).
  rewrite (Nat.mod_small (a / 10)) in H1 by lia.
  rewrite (Nat.mod_small (b / 10)) in H1 by lia.
  lia.
Qed.

Lemma mmdd_inj (m d m' d' : nat) :
  (two_digits m ++ "-" ++ two_digits d)%string
  = (two_digits m' ++ "-" ++ two_digits d')%string ->
  two_digits m = two_digits m' /\ two_digits d = two_digits d'.
Proof.
  unfold two_digits.
  generalize (digit (m / 10)) (digit m) (digit (d / 10)) (digit d)
             (digit (m' / 10)) (digit m') (digit (d' / 10)) (digit d').
  cbn [append]. intros a b c e a' b' c' e' H.
  injection H as -> -> -> ->. now split.
Qed.
End CalendarDay.

(** X8. The calendar-day key depends on the month and the day of the
    month only: two daily rows fall into the same threshold group
    exactly when they have the same station, month and day of the
    month, whatever their years. *)
Theorem same_group_same_calendar_day (a b : NoaaDailyTemp.row) :
  two_digit_date (NoaaDailyTemp.day_utc a) ->
  two_digit_date (NoaaDailyTemp.day_utc b) ->
  (station_mmdd a = station_mmdd b <->
   NoaaDailyTemp.station a = NoaaDailyTemp.station b
   /\ ts_month (NoaaDailyTemp.day_utc a) = ts_month (NoaaDailyTemp.day_utc b)
   /\ ts_day (NoaaDailyTemp.day_utc a) = ts_day (NoaaDailyTemp.day_utc b)).
Proof.
  intros [Ham Had] [Hbm Hbd]. unfold station_mmdd, strftime_mmdd. split.
  - intros H. pose proof (f_equal fst H) as Hs.
    pose proof (f_equal snd H) as Hk. cbn [fst snd] in Hs, Hk.
    split; [exact Hs|].
    apply mmdd_inj in Hk. destruct Hk as [Hm Hd].
    split; apply two_digits_inj; auto.
  - intros [-> [-> ->]]. reflexivity.
Qed.

Lemma same_group_same_calendar_day_witness :
  (two_digit_date (NoaaDailyTemp.day_utc (hd unlisted_row outage_daily))
   /\ two_digit_date
        (NoaaDailyTemp.day_utc (hd unlisted_row (tl outage_daily))))
  /\ station_mmdd (hd unlisted_row outage_daily)
     = station_mmdd (hd unlisted_row (tl outage_daily)).
Proof.
  assert (two_digit_date (NoaaDailyTemp.day_utc (hd unlisted_row outage_daily)))
    as Ha by (vm_compute; lia).
  assert (two_digit_date
            (NoaaDailyTemp.day_utc (hd unlisted_row (tl outage_daily))))
    as Hb by (vm_compute; lia).
  split; [split; assumption|].
  apply (proj2 (same_group_same_calendar_day _ _ Ha Hb)).
  vm_compute. repeat split.
Defined.

(** X9. In every daily temperature row with a non-NULL maximum, the
    maximum is the temperature of one of the hourly rows of that
    station and day, and no hourly temperature of that station and day
    is higher. *)
Theorem daily_max_attained (h : list NoaaHourlyAvg.row)
    (d : NoaaDailyTemp.row) (m : Qc) :
  In d (select_noaa_daily_temp h) ->
  NoaaDailyTemp.daily_max_temp_C d = Some m ->
  (exists r, In r h /\ hourly_key r = daily_key d
             /\ NoaaHourlyAvg.temp_C r = Some m)
  /\ (forall r x, In r h -> hourly_key r = daily_key d ->
                  NoaaHourlyAvg.temp_C r = Some x -> x <= m).
Proof.
  intros Hd Hm. apply daily_In in Hd. destruct Hd as [_ [Hmax _]].
  rewrite Hm in Hmax. symmetry in Hmax.
  apply sql_max_spec in Hmax. destruct Hmax as [Hin Hub].
  split.
  - apply in_map_iff in Hin. destruct Hin as [r [Hr Hg]].
    apply group_rows_In in Hg. exists r. tauto.
  - intros r x Hr Hk Hx. apply Hub. rewrite <- Hx.
    apply in_map. apply group_rows_In. auto.
Qed.

Lemma daily_max_attained_witness :
  (In (hd unlisted_row unlisted_daily) unlisted_daily
   /\ NoaaDailyTemp.daily_max_temp_C (hd unlisted_row unlisted_daily)
      = Some (tenths 310))
  /\ exists r, In r unlisted_station
               /\ hourly_key r = daily_key (hd unlisted_row unlisted_daily)
               /\ NoaaHourlyAvg.temp_C r = Some (tenths 310).
Proof.
  assert (In (hd unlisted_row unlisted_daily)
             (select_noaa_daily_temp unlisted_station)) as Hin
    by (vm_compute; left; reflexivity).
  assert (NoaaDailyTemp.daily_max_temp_C (hd unlisted_row unlisted_daily)
          = Some (tenths 310)) as Hm by (vm_compute; reflexivity).
  split; [split; assumption|].
  exact (proj1 (@daily_max_attained _ _ _ Hin Hm)).
Defined.

Lemma quantile_cont_no_sample (l : list (option Qc)) (q : Qc) :
  Sql.non_null l = [] -> Sql.quantile_cont l q = None.
Proof. intros E. unfold Sql.quantile_cont. now rewrite E. Qed.

(** X10. A threshold row has a NULL [t90_max] exactly when every daily
    maximum of its station and calendar day is NULL: such a group still
    gets a row in the threshold table. *)
Theorem null_threshold_iff_no_sample (n : list NoaaDailyTemp.row)
    (th : NoaaTempThresholds.row) :
  In th (select_noaa_temp_thresholds n) ->
  (NoaaTempThresholds.t90_max th = None <->
   forall d, In d n -> station_mmdd d = threshold_key th ->
             NoaaDailyTemp.daily_max_temp_C d = None).
Proof.
  intros Hth. apply threshold_In in Hth. destruct Hth as [_ Hq].
  split.
  - intros Hnone d Hd Hk.
    destruct (NoaaDailyTemp.daily_max_temp_C d) as [x|] eqn:Hx;
      [exfalso|reflexivity].
    assert (In x (samples_of (threshold_key th) n)) as Hin.
    { unfold samples_of. apply non_null_In. rewrite <- Hx.
      apply in_map. apply group_rows_In. auto. }
    destruct (samples_of (threshold_key th) n) as [|s ss] eqn:E;
      [destruct Hin|].
    destruct (quantile_cont_between q90_nonneg q90_le_1 _ E) as [v [Hv _]].
    congruence.
  - intros Hall. rewrite Hq. apply quantile_cont_no_sample.
    apply non_null_all_null. intros x Hx.
    apply in_map_iff in Hx. destruct Hx as [d [<- Hd]].
    apply group_rows_In in Hd. destruct Hd. now apply Hall.
Qed.

Lemma null_threshold_iff_no_sample_witness :
  In (hd null_threshold_row
         (select_noaa_temp_thresholds (select_noaa_daily_temp outage_only)))
     (select_noaa_temp_thresholds (select_noaa_daily_temp outage_only))
  /\ NoaaTempThresholds.t90_max
       (hd null_threshold_row
           (select_noaa_temp_thresholds (select_noaa_daily_temp outage_only)))
     = None.
Proof.
  assert (In (hd null_threshold_row
                 (select_noaa_temp_thresholds
                    (select_noaa_daily_temp outage_only)))
             (select_noaa_temp_thresholds
                (select_noaa_daily_temp outage_only))) as Hin
    by (vm_compute; left; reflexivity).
  split; [exact Hin|].
  apply (proj2 (@null_threshold_iff_no_sample _ _ Hin)).
  intros d Hd _. vm_compute in Hd. destruct Hd as [<-|[]]. reflexivity.
Defined.

(** The threshold matching a day that has a maximum is not NULL. *)
Lemma threshold_defined (n : list NoaaDailyTemp.row) (d : NoaaDailyTemp.row)
    (x : Qc) (t0 : NoaaTempThresholds.row) :
  In d n ->
  NoaaDailyTemp.daily_max_temp_C d = Some x ->
  In t0 (select_noaa_temp_thresholds n) ->
  on_threshold d t0 = true ->
  NoaaTempThresholds.t90_max t0 <> None.
Proof.
  intros Hd Hx Ht Hon.
  apply on_threshold_key in Hon. apply threshold_In in Ht.
  destruct Ht as [_ Hq]. rewrite Hon in Hq.
  assert (In x (samples_of (station_mmdd d) n)) as Hin.
  { unfold samples_of. apply non_null_In. rewrite <- Hx.
    apply in_map. apply group_rows_In. auto. }
  destruct (samples_of (station_mmdd d) n) as [|s ss] eqn:E;
    [destruct Hin|].
  destruct (quantile_cont_between q90_nonneg q90_le_1 _ E) as [v [Hv _]].
  congruence.
Qed.

(** X11. In the unified table of a run, with thresholds built from the
    same daily table, [is_hot_day] is NULL exactly for the days whose
    daily maximum is NULL: a day that has a temperature always has a
    threshold to compare with. *)
Theorem null_flag_iff_null_max (n : list NoaaDailyTemp.row)
    (e : list EiaDailyLoad.row) (u : HeatLoadDaily.row) :
  In u (select_heat_load_daily n (select_noaa_temp_thresholds n) e) ->
  (HeatLoadDaily.is_hot_day u = None
   <-> HeatLoadDaily.daily_max_temp_C u = None).
Proof.
  intros Hu. apply heat_load_daily_In in Hu.
  destruct Hu as [d [ot [oe [Hd [Hot [_ ->]]]]]]. simpl.
  split; [|intros ->; reflexivity].
  destruct (NoaaDailyTemp.daily_max_temp_C d) as [x|] eqn:Hx;
    [|reflexivity].
  intros Hnull. exfalso.
  pose proof (@threshold_of_day n d Hd) as Hone.
  destruct (filter (on_threshold d) (select_noaa_temp_thresholds n))
    as [|t0 ?] eqn:F; [discriminate|].
  assert (In t0 (filter (on_threshold d) (select_noaa_temp_thresholds n)))
    as Ht0 by (rewrite F; now left).
  apply filter_In in Ht0. destruct Ht0 as [Ht0 Hon0].
  assert (forall y, In y (select_noaa_temp_thresholds n) ->
                    on_threshold d y = true ->
                    NoaaTempThresholds.t90_max y <> None) as Hsome.
  { intros y Hy Hon. now apply (@threshold_defined n d x y). }
  destruct Hot as [[-> Hnone]|[y [-> [Hy Hon]]]].
  - rewrite (Hnone t0 Ht0) in Hon0. discriminate.
  - simpl in Hnull. specialize (Hsome y Hy Hon).
    destruct (NoaaTempThresholds.t90_max y); [discriminate|congruence].
Qed.

Lemma null_flag_iff_null_max_witness :
  In outage_row outage_unified
  /\ (HeatLoadDaily.is_hot_day outage_row = None
      <-> HeatLoadDaily.daily_max_temp_C outage_row = None).
Proof.
  assert (In outage_row
             (select_heat_load_daily
                outage_daily (select_noaa_temp_thresholds outage_daily) []))
    as Hin by (vm_compute; left; reflexivity).
  split; [exact Hin|].
  exact (@null_flag_iff_null_max _ _ _ Hin).
Defined.

Section Sums.



End Sums.



(* ================================================================== *)
(** ** The exemption score *)
(* ================================================================== *)

Section ScoringFacts.
Variable format_0f : Qc -> string.
Variable format_int_commas : Qc -> string.

Lemma Qcleb_le (x y : Qc) : Qcleb x y = true <-> x <= y.
Proof.
  unfold Qcleb. destruct (Qclt_le_dec y x) as [Hlt|Hle]; split; auto.
  - discriminate.
  - intros Hle. exfalso. exact (Qclt_not_le _ _ Hlt Hle).
Qed.

Ltac split_cases :=
  repeat match goal with
         | |- context [match ?x with Some _ => _ | None => _ end] =>
             destruct x eqn:?
         | |- context [if ?b then _ else _] => destruct b eqn:?
         end.

(** Names the pair that the next step of a function returns. *)
Ltac next_step s r E :=
  match goal with
  | |- context [match ?e with (_, _) => _ end] => destruct e as [s r] eqn:E
  end;
  cbv beta iota.

Ltac step_facts E :=
  revert E; split_cases; intros E; injection E as <- <-;
  rewrite ?length_app; simpl; repeat split; intros; try lia; try reflexivity.

(** The score is the sum of the four category scores, the tier is read
    off the score, and the reasons are at most four, followed by the
    notes on the categories without data. *)
Lemma score_steps (row : Facility.row) :
  exists rs,
    calculate_exemption_score format_0f row
    = ((power_points row + ej_points row + population_points row
        + water_points row)%Z,
       tier_of (power_points row + ej_points row + population_points row
                + water_points row),
       rs ++ data_notes)
    /\ (length rs <= 4)%nat
    /\ ((power_points row + ej_points row + population_points row
         + water_points row = 75)%Z -> rs = []).
Proof.
  unfold calculate_exemption_score. cbv beta zeta.
  next_step s1 r1 E1.
  assert (s1 = power_points row /\ (length r1 <= 1)%nat
          /\ (s1 = 28%Z -> r1 = [])) as [H1 [L1 N1]]
    by (unfold power_points; step_facts E1).
  next_step s2 r2 E2.
  assert (s2 = (s1 + ej_points row)%Z /\ (length r2 <= length r1 + 1)%nat
          /\ (s2 = (s1 + 20)%Z -> r2 = r1)) as [H2 [L2 N2]]
    by (unfold ej_points; step_facts E2).
  next_step s3 r3 E3.
  assert (s3 = (s2 + population_points row)%Z
          /\ (length r3 <= length r2 + 1)%nat
          /\ (s3 = (s2 + 15)%Z -> r3 = r2)) as [H3 [L3 N3]]
    by (unfold population_points; step_facts E3).
  next_step s4 r4 E4.
  assert (s4 = (s3 + water_points row)%Z
          /\ (length r4 <= length r3 + 1)%nat
          /\ (s4 = (s3 + 12)%Z -> r4 = r3)) as [H4 [L4 N4]]
    by (unfold water_points; step_facts E4).
  exists r4. subst s4 s3 s2 s1. split; [reflexivity|]. split; [lia|].
  intros H75.
  assert (power_points row <= 28 /\ ej_points row <= 20
          /\ population_points row <= 15 /\ water_points row <= 12)%Z
    as [B1 [B2 [B3 B4]]].
  { unfold power_points, ej_points, population_points, water_points.
    repeat split; split_cases; lia. }
  rewrite N4, N3, N2, N1 by lia. reflexivity.
Qed.

Lemma points_range (row : Facility.row) :
  ((power_points row = 28 \/ power_points row = 18
    \/ power_points row = 7 \/ power_points row = 0)
   /\ (ej_points row = 20 \/ ej_points row = 0)
   /\ 0 <= population_points row <= 15
   /\ 0 <= water_points row <= 12)%Z.
Proof.
  unfold power_points, ej_points, population_points, water_points.
  repeat split; split_cases; auto; lia.
Qed.

Lemma power_points_capacity (row : Facility.row) :
  (18 <= power_points row)%Z ->
  exists cap, capacity_numeric row = Some cap /\ cap <= Qc_of_Z 75.
Proof.
  unfold power_points.
  destruct (capacity_numeric row) as [cap|]; [|lia].
  destruct (Qcleb cap (Qc_of_Z 20)) eqn:H20;
    [|destruct (Qcleb cap (Qc_of_Z 75)) eqn:H75;
      [|destruct (Qcleb cap (Qc_of_Z 200))]];
    intros Hp; try lia; exists cap; split; auto.
  - apply Qcleb_le in H20. eapply Qcle_trans; [exact H20|].
    unfold Qcle. simpl. lra.
  - now apply Qcleb_le.
Qed.

(** X13. The exemption score is never above 75 of the 100 points,
    because the four categories without data always score 0; so no
    facility is ever given the tier 'Full Exemption (100%)': the tier
    is 'Partial Exemption (50%)' from 60 points on and 'No Exemption
    (0%)' below. *)
Theorem full_exemption_unreachable (row : Facility.row) :
  let score := fst (fst (calculate_exemption_score format_0f row)) in
  let tier := snd (fst (calculate_exemption_score format_0f row)) in
  (0 <= score <= 75)%Z
  /\ tier <> "Full Exemption (100%)"%string
  /\ (tier = "Partial Exemption (50%)"%string <-> (60 <= score)%Z)
  /\ (tier = "No Exemption (0%)"%string <-> (score < 60)%Z).
Proof.
  destruct (score_steps row) as [rs [E _]]. rewrite E. cbn [fst snd].
  destruct (points_range row) as [Hp [He [Ho Hw]]].
  set (s := (power_points row + ej_points row + population_points row
             + water_points row)%Z) in *.
  assert (0 <= s <= 75)%Z as Hs by (unfold s; lia).
  unfold tier_of.
  destruct (Z.leb_spec 80 s); [lia|].
  destruct (Z.leb_spec 60 s); repeat split; try discriminate; auto; lia.
Qed.

(** X14. A partial exemption is only given to a facility without an
    environmental-justice concern whose capacity is known and at most
    75 MW: an EJ percentile of 80 or more, a missing capacity or a
    capacity above 75 MW each leave the score below 60. *)
Theorem partial_exemption_requires (row : Facility.row) :
  snd (fst (calculate_exemption_score format_0f row))
  = "Partial Exemption (50%)"%string ->
  ej_concern row = false
  /\ exists cap, capacity_numeric row = Some cap /\ cap <= Qc_of_Z 75.
Proof.
  destruct (score_steps row) as [rs [E _]]. rewrite E. cbn [fst snd].
  destruct (points_range row) as [Hp [He [Ho Hw]]].
  unfold tier_of.
  destruct (Z.leb_spec 80 (power_points row + ej_points row
                           + population_points row + water_points row));
    [discriminate|].
  destruct (Z.leb_spec 60 (power_points row + ej_points row
                           + population_points row + water_points row));
    [|discriminate].
  intros _. split.
  - unfold ej_points in *. destruct (ej_concern row); [simpl in *; lia|].
    reflexivity.
  - apply power_points_capacity. lia.
Qed.

(** X15. The list of reasons always ends with the four notes on the
    categories without data, so it is never empty; before them come at
    most four reasons, and none at all when the score is 75. *)
Theorem reasons_end_with_data_notes (row : Facility.row) :
  exists specific,
    snd (calculate_exemption_score format_0f row)
    = specific ++ ["No renewable energy data (0/10)";
                   "No CO2 emissions data (0/7)";
                   "No community engagement data (0/4)";
                   "No disclosure data (0/4)"]%string
    /\ (length specific <= 4)%nat
    /\ (fst (fst (calculate_exemption_score format_0f row)) = 75%Z ->
        specific = []).
Proof.
  destruct (score_steps row) as [rs [E [L N]]]. rewrite E. cbn [fst snd].
  exists rs. auto.
Qed.

(** X16. The total that the detailed breakdown adds up is the score of
    [calculate_exemption_score] for the same facility; it is the sum
    of the points of the eight categories of the breakdown, each
    between 0 and its maximum, and the maxima add up to 100. *)
Theorem breakdown_matches_score (row : Facility.row) :
  let total :=
    fst (print_detailed_breakdown format_0f format_int_commas row) in
  let breakdown :=
    snd (print_detailed_breakdown format_0f format_int_commas row) in
  total = fst (fst (calculate_exemption_score format_0f row))
  /\ total = fold_right Z.add 0%Z (map (fun c => fst (fst (snd c))) breakdown)
  /\ Forall (fun c => (0 <= fst (fst (snd c)) <= snd (fst (snd c)))%Z)
            breakdown
  /\ fold_right Z.add 0%Z (map (fun c => snd (fst (snd c))) breakdown) = 100%Z
  /\ map fst breakdown
     = ["Power"; "Environmental Justice"; "Population"; "Water Stress";
        "Renewable Energy"; "CO2 Emissions"; "Community Engagement";
        "Disclosure"]%string.
Proof.
  destruct (score_steps row) as [rs [E _]]. rewrite E. cbn [fst snd].
  destruct (points_range row) as [Hp [He [Ho Hw]]].
  unfold print_detailed_breakdown. cbv beta zeta.
  next_step p dp E1.
  assert (p = power_points row) as ->
    by (unfold power_points; revert E1; split_cases; intros E1;
        injection E1 as <- _; reflexivity).
  next_step e de E2.
  assert (e = ej_points row) as ->
    by (unfold ej_points; revert E2; split_cases; intros E2;
        injection E2 as <- _; reflexivity).
  next_step o do E3.
  assert (o = population_points row) as ->
    by (unfold population_points; revert E3; split_cases; intros E3;
        injection E3 as <- _; reflexivity).
  next_step w dw E4.
  assert (w = water_points row) as ->
    by (unfold water_points; revert E4; split_cases; intros E4;
        injection E4 as <- _; reflexivity).
  cbn [fst snd map fold_right].
  split; [lia|]. split; [lia|]. split; [|split; reflexivity].
  repeat constructor; cbn [fst snd]; lia.
Qed.
End ScoringFacts.

Lemma partial_exemption_requires_witness :
  snd (fst (calculate_exemption_score no_format sample_facility))
  = "Partial Exemption (50%)"%string
  /\ ej_concern sample_facility = false.
Proof.
  assert (snd (fst (calculate_exemption_score no_format sample_facility))
          = "Partial Exemption (50%)"%string) as H
    by (vm_compute; reflexivity).
  split; [exact H|].
  exact (proj1 (@partial_exemption_requires no_format sample_facility H)).
Defined.

(** X17. A facility has an environmental-justice concern exactly when
    at least one of its EJ percentiles is 80 or more; percentiles that
    are missing are ignored, and a facility without any EJ percentile
    has no concern. *)
Theorem ej_concern_iff_some_percentile (row : Facility.row) :
  (ej_concern row = true <->
   exists p, In (Some p) (Facility.ej row) /\ Qc_of_Z 80 <= p)
  /\ ((forall x, In x (Facility.ej row) -> x = None) ->
      ej_concern row = false).
Proof.
  unfold ej_concern, ej_max_percentile. split.
  - split.
    + destruct (Sql.sql_max (Facility.ej row)) as [m|] eqn:E; [|discriminate].
      intros H. apply Qcleb_le in H. apply sql_max_spec in E.
      exists m. tauto.
    + intros [p [Hp H80]].
      destruct (@sql_max_defined _ _ Hp) as [m E]. rewrite E.
      apply Qcleb_le. eapply Qcle_trans; [exact H80|].
      apply sql_max_spec in E. now apply E.
  - intros Hnull. unfold Sql.sql_max.
    now rewrite non_null_all_null.
Qed.

(** X18. For a frame of at least one facility the five sample
    positions are valid positions of the frame, in non-decreasing
    order; they are five different facilities exactly when the frame
    has at least five. *)
Theorem sample_indices_valid (A : Type) (l : list A) :
  l <> [] ->
  let n := Z.of_nat (length l) in
  Forall (fun idx => (0 <= idx < n)%Z /\ iloc l idx <> None)
         (sample_indices n)
  /\ Sorted Z.le (sample_indices n)
  /\ (NoDup (sample_indices n) <-> (5 <= n)%Z).
Proof.
  intros Hl n.
  assert (1 <= n)%Z as Hn.
  { unfold n. destruct l; [congruence|]. simpl length. lia. }
  assert (0 <= n / 4 /\ n / 4 <= n / 2 /\ n / 2 <= 3 * n / 4
          /\ 3 * n / 4 <= n - 1)%Z as [H1 [H2 [H3 H4]]].
  { pose proof (Z.div_mod n 4). pose proof (Z.mod_pos_bound n 4).
    pose proof (Z.div_mod n 2). pose proof (Z.mod_pos_bound n 2).
    pose proof (Z.div_mod (3 * n) 4). pose proof (Z.mod_pos_bound (3 * n) 4).
    lia. }
  split; [|split].
  - assert (forall idx, (0 <= idx < n)%Z ->
                        (0 <= idx < n)%Z /\ iloc l idx <> None) as Hok.
    { intros idx Hi. split; [exact Hi|]. unfold iloc. fold n.
      destruct (Z.leb_spec 0 idx); [|lia].
      destruct (Z.ltb_spec idx n); [|lia]. simpl.
      apply nth_error_Some. lia. }
    unfold sample_indices. repeat constructor; apply Hok; lia.
  - unfold sample_indices. repeat constructor; assumption.
  - unfold sample_indices. split.
    + intros ND. destruct (Z.le_gt_cases 5 n) as [|Hlt]; [assumption|].
      exfalso.
      assert (n = 1 \/ n = 2 \/ n = 3 \/ n = 4)%Z as [-> | [-> | [-> | ->]]] by lia;
        vm_compute in ND;
        repeat match goal with
               | H : NoDup (_ :: _) |- _ => inversion H; clear H; subst
               end;
        simpl in *; tauto.
    + intros H5.
      assert (0 < n / 4 /\ n / 4 < n / 2 /\ n / 2 < 3 * n / 4
              /\ 3 * n / 4 < n - 1)%Z as [G1 [G2 [G3 G4]]].
      { pose proof (Z.div_mod n 4). pose proof (Z.mod_pos_bound n 4).
        pose proof (Z.div_mod n 2). pose proof (Z.mod_pos_bound n 2).
        pose proof (Z.div_mod (3 * n) 4).
        pose proof (Z.mod_pos_bound (3 * n) 4).
        lia. }
      clearbody n. repeat (apply NoDup_cons; [cbn [In]; lia|]). apply NoDup_nil.
Qed.

Lemma sample_indices_valid_witness :
  [sample_facility] <> []
  /\ Sorted Z.le (sample_indices (Z.of_nat (length [sample_facility]))).
Proof.
  assert ([sample_facility] <> []) as H by discriminate.
  split; [exact H|].
  exact (proj1 (proj2 (@sample_indices_valid _ [sample_facility] H))).
Defined.
